(** * zea.data.datasets: metadata discovery, caching and validation

    A shallow embedding of [zea/zea/data/datasets.py]:
    - [convert_tuples_to_lists], on a model of the Python values it
      discriminates on (dict, list, tuple, anything else);
    - [search_file_tree], as a function of the file system it reads and
      writes, returning its result, the new file system and the list of
      HDF5 paths it opened;
    - [Folder] with [validate] and [get_shapes]. *)

From stdpp Require Import base decidable option list strings gmap sorting.
From Stdlib Require Import ZArith Lia.

Open Scope string_scope.
Open Scope list_scope.

(** ** Python values *)

Module Py.

(** Values that fall in the [else] branch of [convert_tuples_to_lists].
    A float is kept as its IEEE-754 bit pattern; it is never inspected. *)
Inductive atom :=
  | ANone
  | ABool (b : bool)
  | AInt (z : Z)
  | AFloat (bits : Z)
  | AStr (s : string).

(** Dictionary keys are hashable: atoms and tuples of hashable values. *)
#[local] Unset Elimination Schemes.

Inductive key :=
  | KAtom (a : atom)
  | KTuple (ks : list key).

(** A [dict] is kept as its items in insertion order. *)
Inductive value :=
  | VAtom (a : atom)
  | VList (items : list value)
  | VTuple (items : list value)
  | VDict (items : list (key * value)).

Definition VStr (s : string) : value := VAtom (AStr s).
Definition VInt (z : Z) : value := VAtom (AInt z).
Definition KStr (s : string) : key := KAtom (AStr s).

(** Induction over values that reaches inside lists, tuples and dict
    values. *)
Section value_ind.
Variable P : value -> Prop.
Hypothesis Hatom : forall a, P (VAtom a).
Hypothesis Hlist : forall l, Forall P l -> P (VList l).
Hypothesis Htuple : forall l, Forall P l -> P (VTuple l).
Hypothesis Hdict : forall d, Forall (fun kv => P (snd kv)) d -> P (VDict d).

Fixpoint value_nested_ind (v : value) : P v :=
  match v with
  | VAtom a => Hatom a
  | VList l =>
      Hlist l ((fix go (l : list value) : Forall P l :=
                  match l with
                  | [] => @List.Forall_nil _ P
                  | x :: l' => @List.Forall_cons _ P x l' (value_nested_ind x) (go l')
                  end) l)
  | VTuple l =>
      Htuple l ((fix go (l : list value) : Forall P l :=
                   match l with
                   | [] => @List.Forall_nil _ P
                   | x :: l' => @List.Forall_cons _ P x l' (value_nested_ind x) (go l')
                   end) l)
  | VDict d =>
      Hdict d ((fix go (d : list (key * value))
                  : Forall (fun kv => P (snd kv)) d :=
                  match d with
                  | [] => @List.Forall_nil _ _
                  | kv :: d' =>
                      @List.Forall_cons _ (fun kv => P (snd kv)) kv d'
                        (value_nested_ind (snd kv)) (go d')
                  end) d)
  end.
End value_ind.

(** [convert_tuples_to_lists(obj)]: a dict keeps its keys and converts its
    values; a list or a tuple becomes a list of converted items; anything
    else is returned as it is. *)
Fixpoint convert_tuples_to_lists (obj : value) : value :=
  match obj with
  | VDict d =>
      VDict (map (fun kv => (fst kv, convert_tuples_to_lists (snd kv))) d)
  | VList l => VList (map convert_tuples_to_lists l)
  | VTuple l => VList (map convert_tuples_to_lists l)
  | VAtom a => VAtom a
  end.

(** *** Predicates on values *)

(** A key that is not and does not contain a tuple is an atom. *)
Definition key_has_tuple (k : key) : bool :=
  match k with KAtom _ => false | KTuple _ => true end.

(** No tuple in a value position: at top level, as an item of a list or
    as a value of a dict, at any depth. Keys are not looked at. *)
Fixpoint no_tuple_values (v : value) : bool :=
  match v with
  | VAtom _ => true
  | VList l => forallb no_tuple_values l
  | VTuple _ => false
  | VDict d => forallb (fun kv => no_tuple_values (snd kv)) d
  end.

(** No tuple among the keys of any dict, at any depth. *)
Fixpoint no_tuple_keys (v : value) : bool :=
  match v with
  | VAtom _ => true
  | VList l => forallb no_tuple_keys l
  | VTuple l => forallb no_tuple_keys l
  | VDict d =>
      forallb (fun kv => negb (key_has_tuple (fst kv)) && no_tuple_keys (snd kv)) d
  end.

(** No tuple anywhere: neither as a value nor as a key. *)
Fixpoint no_tuples (v : value) : bool :=
  match v with
  | VAtom _ => true
  | VList l => forallb no_tuples l
  | VTuple _ => false
  | VDict d =>
      forallb (fun kv => negb (key_has_tuple (fst kv)) && no_tuples (snd kv)) d
  end.

(** The leaves of a value, left to right: the atoms in value positions. *)
Fixpoint leaves (v : value) : list atom :=
  match v with
  | VAtom a => [a]
  | VList l => flat_map leaves l
  | VTuple l => flat_map leaves l
  | VDict d => flat_map (fun kv => leaves (snd kv)) d
  end.

(** The normal form the specification describes, as a relation between an
    input and an output: a tuple or a sequence is related to the sequence of
    the related items, a mapping to the mapping with the same keys in the
    same order and related values, any other value to itself. *)
Inductive normalized : value -> value -> Prop :=
  | norm_atom a : normalized (VAtom a) (VAtom a)
  | norm_list l l' : Forall2 normalized l l' -> normalized (VList l) (VList l')
  | norm_tuple l l' : Forall2 normalized l l' -> normalized (VTuple l) (VList l')
  | norm_dict d d' :
      Forall2 (fun kv kv' => fst kv = fst kv' /\ normalized (snd kv) (snd kv')) d d' ->
      normalized (VDict d) (VDict d').

#[local] Set Elimination Schemes.

End Py.

(** ** Python dictionaries with string keys

    Items in insertion order, as [dict] keeps them. [dict_set] is
    [d[k] = v]: an existing key keeps its place, a new key goes last. *)

Definition dict (V : Type) : Type := list (string * V).

Fixpoint dict_get {V} (d : dict V) (k : string) : option V :=
  match d with
  | [] => None
  | (k', v) :: d' => if String.eqb k' k then Some v else dict_get d' k
  end.

Definition dict_contains {V} (d : dict V) (k : string) : bool :=
  match dict_get d k with Some _ => true | None => false end.

Fixpoint dict_set {V} (d : dict V) (k : string) (v : V) : dict V :=
  match d with
  | [] => [(k, v)]
  | (k', v') :: d' =>
      if String.eqb k' k then (k', v) :: d' else (k', v') :: dict_set d' k v
  end.

(** The invariant of a [dict]: no key twice. *)
Definition dict_wf {V} (d : dict V) : Prop := NoDup (map fst d).

(** ** The manifest *)

(** A shape is a sequence of dimensions; h5py gives a tuple, YAML a list. *)
Inductive seq_kind := IsTuple | IsList.

Record shape := Shape { shape_kind : seq_kind; shape_dims : list Z }.

(** [tuple(s)] *)
Definition tuple (s : shape) : list Z := shape_dims s.

(** One item of [metadata['files']]: a dict with [path], [name] and
    possibly [warning] and [error]. *)
Record file_info := FileInfo {
  fi_path : string;
  fi_name : string;
  fi_warning : option string;
  fi_error : option string
}.

(** The metadata dict of one folder. A fresh scan sets all four keys; a
    loaded [dataset_info.yaml] may lack [files] or [file_shapes], which
    [validate] and [get_shapes] read with [.get]. *)
Record metadata := Metadata {
  folder_path : string;
  primary_key : option string;
  files : option (list file_info);
  file_shapes : option (dict (list shape))
}.

(** [metadata.get('files', [])] *)
Definition get_files (m : metadata) : list file_info := default [] (files m).

(** [metadata.get('file_shapes', {})] *)
Definition get_file_shapes (m : metadata) : dict (list shape) :=
  default [] (file_shapes m).

(** *** The manifest as a Python value *)

Definition shape_to_value (s : shape) : Py.value :=
  match shape_kind s with
  | IsTuple => Py.VTuple (map Py.VInt (shape_dims s))
  | IsList => Py.VList (map Py.VInt (shape_dims s))
  end.

Definition opt_item (k : string) (o : option string) : list (Py.key * Py.value) :=
  match o with
  | Some s => [(Py.KStr k, Py.VStr s)]
  | None => []
  end.

Definition file_info_to_value (fi : file_info) : Py.value :=
  Py.VDict ([(Py.KStr "path", Py.VStr (fi_path fi));
             (Py.KStr "name", Py.VStr (fi_name fi))]
            ++ opt_item "warning" (fi_warning fi)
            ++ opt_item "error" (fi_error fi)).

Definition shapes_to_value (d : dict (list shape)) : Py.value :=
  Py.VDict (map (fun kv => (Py.KStr (fst kv), Py.VList (map shape_to_value (snd kv)))) d).

Definition metadata_to_value (m : metadata) : Py.value :=
  Py.VDict ([(Py.KStr "folder_path", Py.VStr (folder_path m));
             (Py.KStr "primary_key",
              match primary_key m with
              | Some k => Py.VStr k
              | None => Py.VAtom Py.ANone
              end)]
            ++ match files m with
               | Some l => [(Py.KStr "files", Py.VList (map file_info_to_value l))]
               | None => []
               end
            ++ match file_shapes m with
               | Some d => [(Py.KStr "file_shapes", shapes_to_value d)]
               | None => []
               end).

(** [convert_tuples_to_lists(metadata)] on the typed manifest: every shape
    becomes a list. [convert_metadata_to_value] shows that this is
    [Py.convert_tuples_to_lists] on the dict. *)
Definition convert_shape (s : shape) : shape := Shape IsList (shape_dims s).

Definition convert_metadata (m : metadata) : metadata :=
  {| folder_path := folder_path m;
     primary_key := primary_key m;
     files := files m;
     file_shapes :=
       option_map (map (fun kv => (fst kv, map convert_shape (snd kv)))) (file_shapes m) |}.

(** ** HDF5 files, as h5py shows them *)

(** What [f[name]] gives. *)
Inductive h5object :=
  | H5Dataset (dims : list Z)  (* has [.shape], a tuple of ints *)
  | H5Group                    (* has no [shape] attribute *)
  | H5Broken (msg : string).   (* [f[name]] raises; [str(e)] is [msg] *)

(** What [h5py.File(path, 'r')] gives: it raises, or it opens a file whose
    [keys()] are the names of [entries], in this order. *)
Inductive h5file :=
  | Unreadable (msg : string)
  | Readable (entries : list (string * h5object)).

(** [name in f] *)
Definition h5_contains (entries : list (string * h5object)) (name : string) : bool :=
  dict_contains entries name.

(** ** Exceptions and outcomes *)

Inductive exn :=
  | ValueError (msg : string)
  | FileNotFoundError (path : string)
  | YAMLError (msg : string)
  | KeyError (msg : string)
  | AttributeError (msg : string)
  | OSError (msg : string).

(** [str(e)] *)
Definition exn_str (e : exn) : string :=
  match e with
  | ValueError msg => msg
  | FileNotFoundError path => path
  | YAMLError msg => msg
  | KeyError msg => msg
  | AttributeError msg => msg
  | OSError msg => msg
  end.

Inductive result (A : Type) :=
  | Ok (a : A)
  | Raise (e : exn).
Arguments Ok {A} a.
Arguments Raise {A} e.

(** [f[name]]: a missing name and a broken entry raise [KeyError]. *)
Definition h5_getitem (entries : list (string * h5object)) (name : string)
  : result h5object :=
  match dict_get entries name with
  | Some (H5Broken msg) => Raise (KeyError msg)
  | Some obj => Ok obj
  | None => Raise (KeyError name)
  end.

(** [obj.shape] *)
Definition h5_shape (obj : h5object) : result shape :=
  match obj with
  | H5Dataset dims => Ok (Shape IsTuple dims)
  | _ => Raise (AttributeError "'Group' object has no attribute 'shape'")
  end.

(** [hasattr(obj, 'shape')] *)
Definition has_shape (obj : h5object) : bool :=
  match obj with H5Dataset _ => true | _ => false end.

(** ** The file system *)

(** The content of [dataset_info.yaml]: what [yaml.safe_load] gives. *)
Inductive yaml_file :=
  | YamlDoc (m : metadata)
  | YamlInvalid (msg : string).

(** A directory: its entries by name, with what h5py makes of each, and
    its [dataset_info.yaml] when there is one. *)
Record directory := Directory {
  dir_files : gmap string h5file;
  dir_info : option yaml_file
}.

(** The file system: the existing directories by path. *)
Abbreviation filesystem := (gmap string directory).

(** [str(folder_path / name)], for a folder path given in normal form. *)
Definition path_join (folder name : string) : string :=
  String.append folder (String.append "/" name).

(** [name] matches the pattern [*suffix]: the star takes any number of
    leading characters, the rest of the name is [suffix]. *)
Fixpoint ends_with (suffix name : string) : bool :=
  String.eqb name suffix ||
  match name with
  | String _ rest => ends_with suffix rest
  | EmptyString => false
  end.

(** [folder_path.glob('*' + suffix)], as file names, in the order the
    system lists them; nothing when the folder does not exist. *)
Definition glob (fs : filesystem) (folder suffix : string) : list string :=
  match fs !! folder with
  | Some d => filter (fun name => ends_with suffix name = true)
                (fst <$> map_to_list (dir_files d))
  | None => []
  end.

(** The order of [sorted] on the paths of one folder: the order of their
    names as strings. *)
Definition str_le (s1 s2 : string) : Prop := String.leb s1 s2 = true.

#[global] Instance str_le_dec : RelDecision str_le :=
  fun s1 s2 => decide (String.leb s1 s2 = true).

Definition sorted (l : list string) : list string := merge_sort str_le l.

(** [sorted(folder_path.glob("*.h5")) + sorted(folder_path.glob("*.hdf5"))] *)
Definition hdf5_files (fs : filesystem) (folder : string) : list string :=
  sorted (glob fs folder ".h5") ++ sorted (glob fs folder ".hdf5").

(** [h5py.File(folder_path / name, 'r')] *)
Definition h5_open (fs : filesystem) (folder name : string) : h5file :=
  match fs !! folder with
  | Some d =>
      match dir_files d !! name with
      | Some f => f
      | None => Unreadable (path_join folder name)
      end
  | None => Unreadable (path_join folder name)
  end.

(** ** search_file_tree *)

(** [if k not in d: d[k] = []] then [d[k].append(s)] *)
Definition append_shape (d : dict (list shape)) (k : string) (s : shape)
  : dict (list shape) :=
  let d := if dict_contains d k then d else dict_set d k [] in
  dict_set d k (default [] (dict_get d k) ++ [s]).

(** The branch [for key_name in f.keys()]: the shape of every entry that
    has one is appended under its name. [metadata['file_shapes']] is
    updated in place, so when an entry raises, what was appended before
    stays: the function returns the dict as the exception leaves it. *)
Fixpoint collect_all_keys (entries : list (string * h5object))
    (names : list string) (shapes : dict (list shape))
  : dict (list shape) * option exn :=
  match names with
  | [] => (shapes, None)
  | key_name :: rest =>
      match h5_getitem entries key_name with
      | Raise e => (shapes, Some e)
      | Ok obj =>
          if has_shape obj then
            match h5_shape obj with
            | Ok s => collect_all_keys entries rest (append_shape shapes key_name s)
            | Raise e => (shapes, Some e)
            end
          else collect_all_keys entries rest shapes
      end
  end.

(** The branch [if hdf5_key_for_length in f]. *)
Definition collect_key_for_length (entries : list (string * h5object))
    (hdf5_key_for_length : string) (shapes : dict (list shape))
  : dict (list shape) * option exn :=
  if h5_contains entries hdf5_key_for_length then
    match h5_getitem entries hdf5_key_for_length with
    | Raise e => (shapes, Some e)
    | Ok obj =>
        match h5_shape obj with
        | Ok s => (append_shape shapes hdf5_key_for_length s, None)
        | Raise e => (shapes, Some e)
        end
    end
  else (shapes, None).

(** The string of a truthy optional argument. *)
Definition nonempty (s : option string) : option string :=
  match s with
  | Some s => if String.eqb s "" then None else Some s
  | None => None
  end.

Definition missing_key_warning (key : string) : string :=
  String.append "Primary key '" (String.append key "' not found in file").

(** What the loop over [hdf5_files] carries: [metadata['files']],
    [metadata['file_shapes']] and the paths given to [h5py.File] so far. *)
Record scan_state := ScanState {
  st_files : list file_info;
  st_shapes : dict (list shape);
  st_opened : list string
}.

(** The body of [for file_path in hdf5_files]: the [try] block and its
    [except Exception]. *)
Definition scan_file (fs : filesystem) (folder : string)
    (key hdf5_key_for_length : option string)
    (st : scan_state) (name : string) : scan_state :=
  let path := path_join folder name in
  let opened := st_opened st ++ [path] in
  match h5_open fs folder name with
  | Unreadable msg =>
      ScanState (st_files st ++ [FileInfo path name None (Some msg)])
                (st_shapes st) opened
  | Readable entries =>
      let '(shapes, raised) :=
        match nonempty hdf5_key_for_length with
        | Some k => collect_key_for_length entries k (st_shapes st)
        | None => collect_all_keys entries (map fst entries) (st_shapes st)
        end in
      match raised with
      | Some e =>
          ScanState (st_files st ++ [FileInfo path name None (Some (exn_str e))])
                    shapes opened
      | None =>
          let warning :=
            match nonempty key with
            | Some k =>
                if h5_contains entries k then None
                else Some (missing_key_warning k)
            | None => None
            end in
          ScanState (st_files st ++ [FileInfo path name warning None])
                    shapes opened
      end
  end.

Definition scan_files (fs : filesystem) (folder : string)
    (key hdf5_key_for_length : option string) (names : list string)
    (st : scan_state) : scan_state :=
  fold_left (scan_file fs folder key hdf5_key_for_length) names st.

(** The outcome of a call: what it returns or raises, the file system it
    leaves and the paths it gave to [h5py.File]. *)
Record outcome (A : Type) := Outcome {
  out_result : result A;
  out_fs : filesystem;
  out_opened : list string
}.
Arguments Outcome {A} _ _ _.
Arguments out_result {A} _.
Arguments out_fs {A} _.
Arguments out_opened {A} _.

Definition key_required_message : string :=
  "The 'key' argument is required unless you pass redo=True and write=False. This key is needed for validation and determining file structure.".

(** [dataset_info_path.exists()] and the content found there. *)
Definition dataset_info (fs : filesystem) (folder : string) : option yaml_file :=
  match fs !! folder with
  | Some d => dir_info d
  | None => None
  end.

(** The metadata of a fresh scan, after [convert_tuples_to_lists], with
    the paths opened on the way. *)
Definition fresh_scan (fs : filesystem) (folder : string)
    (key hdf5_key_for_length : option string) : metadata * list string :=
  let st := scan_files fs folder key hdf5_key_for_length (hdf5_files fs folder)
              (ScanState [] [] []) in
  (convert_metadata
     {| folder_path := folder;
        primary_key := key;
        files := Some (st_files st);
        file_shapes := Some (st_shapes st) |},
   st_opened st).

(** [open(dataset_info_path, 'w')] and [yaml.dump]: the file is created or
    overwritten in an existing folder; a missing folder raises. *)
Definition write_dataset_info (fs : filesystem) (folder : string) (m : metadata)
  : result filesystem :=
  match fs !! folder with
  | Some d => Ok (<[folder := Directory (dir_files d) (Some (YamlDoc m))]> fs)
  | None => Raise (FileNotFoundError (path_join folder "dataset_info.yaml"))
  end.

Definition search_file_tree (fs : filesystem) (folder : string)
    (key hdf5_key_for_length : option string) (redo write read_only : bool)
  : outcome metadata :=
  if bool_decide (key = None) && (negb redo || write) then
    Outcome (Raise (ValueError key_required_message)) fs []
  else
    match (if negb redo then dataset_info fs folder else None) with
    | Some (YamlDoc m) => Outcome (Ok m) fs []
    | Some (YamlInvalid msg) => Outcome (Raise (YAMLError msg)) fs []
    | None =>
        let '(metadata, opened) := fresh_scan fs folder key hdf5_key_for_length in
        if write && negb read_only then
          match write_dataset_info fs folder metadata with
          | Ok fs' => Outcome (Ok metadata) fs' opened
          | Raise e => Outcome (Raise e) fs opened
          end
        else Outcome (Ok metadata) fs opened
    end.

(** ** Folder *)

(** [search_file_tree_kwargs]: the options a caller may override. *)
Record kwargs := Kwargs {
  kw_key : option (option string);
  kw_hdf5_key_for_length : option (option string);
  kw_redo : option bool;
  kw_write : option bool;
  kw_read_only : option bool
}.

Definition no_kwargs : kwargs := Kwargs None None None None None.

(** [folder_path]: one path or a list of paths. *)
Inductive path_arg :=
  | OnePath (p : string)
  | PathList (ps : list string).

Record Folder := MkFolder {
  folder_paths : list string;
  folder_key : string;
  folder_hdf5_key_for_length : option string;
  folder_read_only : bool;
  folder_metadata : list metadata
}.

Definition folder_key_required_message : string :=
  "The 'key' argument is required for Folder initialization. This is needed for proper validation and file structure determination.".

(** [for folder in self.folder_paths: self.metadata.append(search_file_tree(...))];
    the first call that raises ends the loop. *)
Fixpoint search_folders (fs : filesystem) (folders : list string)
    (key hdf5_key_for_length : option string) (redo write read_only : bool)
    (acc : list metadata) (opened : list string) : outcome (list metadata) :=
  match folders with
  | [] => Outcome (Ok acc) fs opened
  | folder :: rest =>
      let o := search_file_tree fs folder key hdf5_key_for_length redo write read_only in
      match out_result o with
      | Ok m =>
          search_folders (out_fs o) rest key hdf5_key_for_length redo write read_only
            (acc ++ [m]) (opened ++ out_opened o)
      | Raise e => Outcome (Raise e) (out_fs o) (opened ++ out_opened o)
      end
  end.

(** [Folder.__init__] *)
Definition Folder_init (fs : filesystem) (folder_path : path_arg)
    (key : option string) (hdf5_key_for_length : option string)
    (search_file_tree_kwargs : option kwargs) (read_only : bool)
  : outcome Folder :=
  match key with
  | None => Outcome (Raise (ValueError folder_key_required_message)) fs []
  | Some k =>
      let paths := match folder_path with OnePath p => [p] | PathList ps => ps end in
      let kw := default no_kwargs search_file_tree_kwargs in
      let o := search_folders fs paths
                 (default (Some k) (kw_key kw))
                 (default hdf5_key_for_length (kw_hdf5_key_for_length kw))
                 (default false (kw_redo kw))
                 (default true (kw_write kw))
                 (default read_only (kw_read_only kw))
                 [] [] in
      match out_result o with
      | Ok ms =>
          Outcome (Ok (MkFolder paths k hdf5_key_for_length read_only ms))
                  (out_fs o) (out_opened o)
      | Raise e => Outcome (Raise e) (out_fs o) (out_opened o)
      end
  end.

(** ['error' in file_info or 'warning' in file_info] *)
Definition has_error_or_warning (fi : file_info) : bool :=
  bool_decide (is_Some (fi_error fi)) || bool_decide (is_Some (fi_warning fi)).

(** [shapes and len(set(tuple(s) for s in shapes)) > 1] *)
Definition inconsistent (shapes : list shape) : bool :=
  match shapes with
  | [] => false
  | _ => (1 <? size (list_to_set (map tuple shapes) : gset (list Z)))%nat
  end.

(** The body of [for metadata in self.metadata]: [false] when it returns
    [False], [true] when it falls through to the next manifest. *)
Definition validate_metadata (m : metadata) : bool :=
  if existsb has_error_or_warning (get_files m) then false
  else if existsb (fun kv => inconsistent (snd kv)) (get_file_shapes m) then false
  else true.

(** [Folder.validate] on [self.metadata] *)
Fixpoint validate_all (ms : list metadata) : bool :=
  match ms with
  | [] => true
  | m :: rest => if validate_metadata m then validate_all rest else false
  end.

Definition validate (f : Folder) : bool := validate_all (folder_metadata f).

(** The inner loop of [get_shapes] over [file_shapes.items()]. *)
Fixpoint get_shapes_items (items : dict (list shape)) (all_shapes : dict (list Z))
  : dict (list Z) :=
  match items with
  | [] => all_shapes
  | (key_name, shapes) :: rest =>
      match shapes with
      | s :: _ => get_shapes_items rest (dict_set all_shapes key_name (tuple s))
      | [] => get_shapes_items rest all_shapes
      end
  end.

Definition get_shapes_all (ms : list metadata) : dict (list Z) :=
  fold_left (fun all_shapes m => get_shapes_items (get_file_shapes m) all_shapes) ms [].

(** [Folder.get_shapes] *)
Definition get_shapes (f : Folder) : dict (list Z) :=
  get_shapes_all (folder_metadata f).

(** ** Dataset: a Folder behind the same two methods *)

Record Dataset := MkDataset { dataset_folder : Folder; dataset_key : string }.

Definition Dataset_init (fs : filesystem) (folder_path : path_arg)
    (key : option string) (hdf5_key_for_length : option string)
    (search_file_tree_kwargs : option kwargs) (read_only : bool)
  : outcome Dataset :=
  let o := Folder_init fs folder_path key hdf5_key_for_length
             search_file_tree_kwargs read_only in
  match out_result o with
  | Ok f => Outcome (Ok (MkDataset f (folder_key f))) (out_fs o) (out_opened o)
  | Raise e => Outcome (Raise e) (out_fs o) (out_opened o)
  end.

Definition Dataset_validate (d : Dataset) : bool := validate (dataset_folder d).
Definition Dataset_get_shapes (d : Dataset) : dict (list Z) :=
  get_shapes (dataset_folder d).

(** ** What the specification asks of a manifest *)

(** The shapes recorded for one key have at most one distinct value,
    compared dimension by dimension. *)
Definition shapes_agree (shapes : list shape) : Prop :=
  forall s1 s2, In s1 shapes -> In s2 shapes -> shape_dims s1 = shape_dims s2.

(** No file record has an error or a warning, and the shapes of every key
    of this manifest agree. *)
Definition manifest_consistent (m : metadata) : Prop :=
  Forall (fun fi => fi_error fi = None /\ fi_warning fi = None) (get_files m) /\
  Forall (fun kv => shapes_agree (snd kv)) (get_file_shapes m).

(** The representative shape a manifest gives for a key: the first shape
    of its list, when the key is there and the list is not empty. *)
Definition first_shape (m : metadata) (k : string) : option (list Z) :=
  match dict_get (get_file_shapes m) k with
  | Some (s :: _) => Some (shape_dims s)
  | _ => None
  end.

(** The representative shape of the last manifest, in list order, that
    gives one. *)
Fixpoint last_first_shape (ms : list metadata) (k : string) : option (list Z) :=
  match ms with
  | [] => None
  | m :: rest =>
      match last_first_shape rest k with
      | Some dims => Some dims
      | None => first_shape m k
      end
  end.

(** ** What the specification asks of a scan *)

(** The first access that raises while the entries of an open file are
    read, in the two modes of shape collection. *)
Fixpoint first_failure_all_keys (entries : list (string * h5object))
    (names : list string) : option exn :=
  match names with
  | [] => None
  | key_name :: rest =>
      match h5_getitem entries key_name with
      | Raise e => Some e
      | Ok _ => first_failure_all_keys entries rest
      end
  end.

Definition first_failure_key_for_length (entries : list (string * h5object))
    (k : string) : option exn :=
  if h5_contains entries k then
    match h5_getitem entries k with
    | Raise e => Some e
    | Ok obj =>
        match h5_shape obj with
        | Raise e => Some e
        | Ok _ => None
        end
    end
  else None.

(** The failure description of a file whose open or read fails. *)
Definition read_failure (hdf5_key_for_length : option string) (f : h5file)
  : option string :=
  match f with
  | Unreadable msg => Some msg
  | Readable entries =>
      exn_str <$>
        match nonempty hdf5_key_for_length with
        | Some k => first_failure_key_for_length entries k
        | None => first_failure_all_keys entries (map fst entries)
        end
  end.

(** The warning of a file that was read to the end. *)
Definition missing_key (key : option string) (f : h5file) : option string :=
  match f, nonempty key with
  | Readable entries, Some k =>
      if h5_contains entries k then None else Some (missing_key_warning k)
  | _, _ => None
  end.

(** The record of one discovered file. *)
Definition record_of (fs : filesystem) (folder : string)
    (key hdf5_key_for_length : option string) (name : string) : file_info :=
  let f := h5_open fs folder name in
  match read_failure hdf5_key_for_length f with
  | Some msg => FileInfo (path_join folder name) name None (Some msg)
  | None => FileInfo (path_join folder name) name (missing_key key f) None
  end.

(** A call is a fresh scan when it does not load [dataset_info.yaml]. *)
Definition fresh (fs : filesystem) (folder : string) (redo : bool) : Prop :=
  redo = true \/ dataset_info fs folder = None.

(** The key requirement of [search_file_tree]. *)
Definition key_missing (key : option string) (redo write : bool) : Prop :=
  key = None /\ (redo = false \/ write = true).

(** The file system without the file [name] of [folder]. *)
Definition remove_file (fs : filesystem) (folder name : string) : filesystem :=
  match fs !! folder with
  | Some d => <[folder := Directory (delete name (dir_files d)) (dir_info d)]> fs
  | None => fs
  end.

(** A manifest without files and without shapes. *)
Definition empty_manifest (m : metadata) : Prop :=
  get_files m = [] /\ get_file_shapes m = [].

(** What one file does to [metadata['file_shapes']]. *)
Definition shapes_after (fs : filesystem) (folder : string)
    (hdf5_key_for_length : option string)
    (shapes : dict (list shape)) (name : string) : dict (list shape) :=
  match h5_open fs folder name with
  | Unreadable _ => shapes
  | Readable entries =>
      fst match nonempty hdf5_key_for_length with
          | Some k => collect_key_for_length entries k shapes
          | None => collect_all_keys entries (map fst entries) shapes
          end
  end.

(** The shapes a file gives, with their keys, until it has been read to the
    end or an access raises. *)
Fixpoint shapes_read_all_keys (entries : list (string * h5object))
    (names : list string) : list (string * shape) :=
  match names with
  | [] => []
  | key_name :: rest =>
      match h5_getitem entries key_name with
      | Raise _ => []
      | Ok (H5Dataset dims) =>
          (key_name, Shape IsTuple dims) :: shapes_read_all_keys entries rest
      | Ok _ => shapes_read_all_keys entries rest
      end
  end.

Definition shapes_read_key_for_length (entries : list (string * h5object))
    (k : string) : list (string * shape) :=
  if h5_contains entries k then
    match h5_getitem entries k with
    | Ok (H5Dataset dims) => [(k, Shape IsTuple dims)]
    | _ => []
    end
  else [].

Definition shapes_read (hdf5_key_for_length : option string) (f : h5file)
  : list (string * shape) :=
  match f with
  | Unreadable _ => []
  | Readable entries =>
      match nonempty hdf5_key_for_length with
      | Some k => shapes_read_key_for_length entries k
      | None => shapes_read_all_keys entries (map fst entries)
      end
  end.

(** [file_shapes] with the shapes of [l] appended, in order. *)
Definition add_shapes (shapes : dict (list shape)) (l : list (string * shape))
  : dict (list shape) :=
  fold_left (fun d ks => append_shape d (fst ks) (snd ks)) l shapes.

(** A file fails before it has given any shape. *)
Definition fails_before_shapes (fs : filesystem) (folder : string)
    (hdf5_key_for_length : option string) (name : string) : Prop :=
  is_Some (read_failure hdf5_key_for_length (h5_open fs folder name)) /\
  shapes_read hdf5_key_for_length (h5_open fs folder name) = [].

(** ** Example data *)

(** The dict [{(1, 2): 3}], whose only key is a tuple. *)
Definition tuple_keyed : Py.value :=
  Py.VDict [(Py.KTuple [Py.KAtom (Py.AInt 1); Py.KAtom (Py.AInt 2)], Py.VInt 3)].

(** The example of the specification:
    [{"shapes": [(124,500,686),(124,500,686)], "nested": {"inner": (1,2,3)}}]. *)
Definition spec_example : Py.value :=
  Py.VDict
    [(Py.KStr "shapes",
      Py.VList [Py.VTuple [Py.VInt 124; Py.VInt 500; Py.VInt 686];
                Py.VTuple [Py.VInt 124; Py.VInt 500; Py.VInt 686]]);
     (Py.KStr "nested",
      Py.VDict [(Py.KStr "inner", Py.VTuple [Py.VInt 1; Py.VInt 2; Py.VInt 3])])].

(** Two manifests of one Folder that record different shapes for the key
    [image], each of them consistent in itself. *)
Definition manifest_a : metadata :=
  Metadata "a" (Some "image")
    (Some [FileInfo "a/x.h5" "x.h5" None None])
    (Some [("image", [Shape IsList [2; 3]%Z])]).

Definition manifest_b : metadata :=
  Metadata "b" (Some "image")
    (Some [FileInfo "b/y.h5" "y.h5" None None])
    (Some [("image", [Shape IsList [5; 7]%Z; Shape IsTuple [5; 7]%Z])]).

Definition two_folders : Folder :=
  MkFolder ["a"; "b"] "image" None false [manifest_a; manifest_b].

(** A folder with one HDF5 file of each extension, one file that h5py
    cannot open and one file that is not HDF5 by its name. *)
Definition data_dir : directory :=
  Directory
    (list_to_map
       [("b.h5", Readable [("image", H5Dataset [2; 3]%Z)]);
        ("a.hdf5", Readable [("image", H5Dataset [2; 3]%Z); ("meta", H5Group)]);
        ("c.h5", Unreadable "file signature not found");
        ("notes.txt", Unreadable "file signature not found")])
    None.

Definition data_fs : filesystem := {[ "data" := data_dir ]}.

(** A folder that already holds a [dataset_info.yaml]. *)
Definition cached_fs : filesystem :=
  {[ "data" := Directory (dir_files data_dir) (Some (YamlDoc manifest_b)) ]}.

(** A folder whose only file has a dataset and, after it, an entry that
    cannot be read. *)
Definition broken_fs : filesystem :=
  {[ "data" :=
       Directory
         (list_to_map
            [("a.h5", Readable [("image", H5Dataset [2; 3]%Z);
                                ("link", H5Broken "unable to open object")])])
         None ]}.

(** ** More of what a scan is asked *)

(** The file system with the [dataset_info.yaml] of [folder] replaced, or
    removed, and everything else as it was. *)
Definition with_dataset_info (fs : filesystem) (folder : string)
    (info : option yaml_file) : filesystem :=
  match fs !! folder with
  | Some d => <[folder := Directory (dir_files d) info]> fs
  | None => fs
  end.

(** Two file systems hold the same HDF5 files in the same folders. *)
Definition same_files (fs fs' : filesystem) : Prop :=
  forall folder, dir_files <$> (fs !! folder) = dir_files <$> (fs' !! folder).

(** The options a Folder passes to [search_file_tree]: its own arguments,
    under the caller's overrides. *)
Definition effective_write (kw : option kwargs) : bool :=
  default true (kw_write (default no_kwargs kw)).

Definition effective_read_only (kw : option kwargs) (read_only : bool) : bool :=
  default read_only (kw_read_only (default no_kwargs kw)).

Definition effective_redo (kw : option kwargs) : bool :=
  default false (kw_redo (default no_kwargs kw)).

Definition effective_key (kw : option kwargs) (key : string) : option string :=
  default (Some key) (kw_key (default no_kwargs kw)).

Definition effective_key_for_length (kw : option kwargs)
    (hdf5_key_for_length : option string) : option string :=
  default hdf5_key_for_length (kw_hdf5_key_for_length (default no_kwargs kw)).

(** [folder_path] as the list [Folder] makes of it. *)
Definition paths_of (folder_path : path_arg) : list string :=
  match folder_path with
  | OnePath p => [p]
  | PathList ps => ps
  end.

(** The Folder with every manifest passed through
    [convert_tuples_to_lists]. *)
Definition convert_folder (f : Folder) : Folder :=
  MkFolder (folder_paths f) (folder_key f) (folder_hdf5_key_for_length f)
    (folder_read_only f) (map convert_metadata (folder_metadata f)).

(** The dimensions of the dataset [k] of the file [name], when the file
    can be opened and holds a dataset of that name. *)
Definition dataset_dims (fs : filesystem) (folder k name : string)
  : option (list Z) :=
  match h5_open fs folder name with
  | Readable entries =>
      match dict_get entries k with
      | Some (H5Dataset dims) => Some dims
      | _ => None
      end
  | Unreadable _ => None
  end.

(** * Properties *)

(** ** The shape normalizer *)

Section convert_facts.
Import Py.

Lemma convert_normalized (v : value) : normalized v (convert_tuples_to_lists v).
Proof.
  induction v as [a | l IH | l IH | d IH] using value_nested_ind; simpl.
  - constructor.
  - constructor. induction IH; simpl; constructor; auto.
  - constructor. induction IH; simpl; constructor; auto.
  - constructor. induction IH; simpl; constructor; auto.
Qed.

Lemma convert_no_tuple_values (v : value) :
  no_tuple_values (convert_tuples_to_lists v) = true.
Proof.
  induction v as [a | l IH | l IH | d IH] using value_nested_ind; simpl;
    try reflexivity;
    induction IH as [| x l' Hx _ IHl]; simpl; try reflexivity;
    rewrite Hx; exact IHl.
Qed.

Lemma convert_leaves (v : value) :
  leaves (convert_tuples_to_lists v) = leaves v.
Proof.
  induction v as [a | l IH | l IH | d IH] using value_nested_ind; simpl;
    try reflexivity;
    induction IH as [| x l' Hx _ IHl]; simpl; try reflexivity;
    rewrite Hx; f_equal; exact IHl.
Qed.

Lemma convert_no_tuples (v : value) :
  no_tuple_keys v = true -> no_tuples (convert_tuples_to_lists v) = true.
Proof.
  induction v as [a | l IH | l IH | d IH] using value_nested_ind; simpl;
    try reflexivity.
  - induction IH as [| x l' Hx _ IHl]; simpl; [reflexivity |].
    intros [H1 H2]%andb_prop. rewrite Hx, IHl; auto.
  - induction IH as [| x l' Hx _ IHl]; simpl; [reflexivity |].
    intros [H1 H2]%andb_prop. rewrite Hx, IHl; auto.
  - induction IH as [| [k x] d' Hx _ IHd]; simpl; [reflexivity |].
    intros [[H1 H2]%andb_prop H3]%andb_prop. simpl in *.
    rewrite H1, Hx, IHd; auto.
Qed.
End convert_facts.

(** C4, as stated, fails: [convert_tuples_to_lists({(1, 2): 3})] is the
    same dict, and the tuple that is its key is still in the output. *)
Lemma C4_tuple_key_survives :
  Py.convert_tuples_to_lists tuple_keyed = tuple_keyed /\
  Py.no_tuples (Py.convert_tuples_to_lists tuple_keyed) = false.
Proof. split; reflexivity. Qed.

(** C4, amended: [convert_tuples_to_lists] is total; its output is the
    normal form of its input (every tuple or list in a value position
    replaced by the list of its normalized items, every dict with the same
    keys in the same order and normalized values, any other value
    unchanged); the output has no tuple in a value position and the same
    leaves; keys are left as they are, so the output has no tuple at all
    when no key of the input is a tuple. *)
Theorem C4_convert_tuples_to_lists (v : Py.value) :
  Py.normalized v (Py.convert_tuples_to_lists v) /\
  Py.no_tuple_values (Py.convert_tuples_to_lists v) = true /\
  Py.leaves (Py.convert_tuples_to_lists v) = Py.leaves v /\
  (Py.no_tuple_keys v = true ->
   Py.no_tuples (Py.convert_tuples_to_lists v) = true).
Proof.
  split; [apply convert_normalized |].
  split; [apply convert_no_tuple_values |].
  split; [apply convert_leaves | apply convert_no_tuples].
Qed.

Lemma C4_convert_tuples_to_lists_witness :
  Py.convert_tuples_to_lists spec_example =
    Py.VDict
      [(Py.KStr "shapes",
        Py.VList [Py.VList [Py.VInt 124; Py.VInt 500; Py.VInt 686];
                  Py.VList [Py.VInt 124; Py.VInt 500; Py.VInt 686]]);
       (Py.KStr "nested",
        Py.VDict [(Py.KStr "inner", Py.VList [Py.VInt 1; Py.VInt 2; Py.VInt 3])])] /\
  Py.no_tuple_keys spec_example = true /\
  Py.no_tuples (Py.convert_tuples_to_lists spec_example) = true.
Proof.
  split; [reflexivity |].
  split; [reflexivity |].
  apply (C4_convert_tuples_to_lists spec_example). reflexivity.
Defined.

(** *** The normalizer on a manifest *)

Lemma convert_shape_to_value (s : shape) :
  Py.convert_tuples_to_lists (shape_to_value s) = shape_to_value (convert_shape s).
Proof.
  unfold shape_to_value, convert_shape. simpl.
  assert (H : forall dims, map Py.convert_tuples_to_lists (map Py.VInt dims)
                           = map Py.VInt dims).
  { induction dims as [| z dims IH]; simpl; [| rewrite IH]; reflexivity. }
  destruct (shape_kind s); simpl; rewrite H; reflexivity.
Qed.

Lemma convert_file_info_to_value (fi : file_info) :
  Py.convert_tuples_to_lists (file_info_to_value fi) = file_info_to_value fi.
Proof.
  unfold file_info_to_value.
  destruct (fi_warning fi), (fi_error fi); reflexivity.
Qed.

Lemma convert_shapes_to_value (d : dict (list shape)) :
  Py.convert_tuples_to_lists (shapes_to_value d)
    = shapes_to_value (map (fun kv => (fst kv, map convert_shape (snd kv))) d).
Proof.
  unfold shapes_to_value. simpl. f_equal.
  induction d as [| [k shapes] d IH]; simpl; [reflexivity |].
  rewrite IH. do 3 f_equal.
  induction shapes as [| s shapes IHs]; simpl; [reflexivity |].
  rewrite convert_shape_to_value, IHs. reflexivity.
Qed.

Lemma convert_files_to_value (l : list file_info) :
  map Py.convert_tuples_to_lists (map file_info_to_value l)
    = map file_info_to_value l.
Proof.
  induction l as [| fi l IH]; cbn [map]; [reflexivity |].
  rewrite convert_file_info_to_value, IH. reflexivity.
Qed.

Lemma convert_dict_app (d1 d2 : list (Py.key * Py.value)) :
  Py.convert_tuples_to_lists (Py.VDict (d1 ++ d2)) =
    Py.VDict (map (fun kv => (fst kv, Py.convert_tuples_to_lists (snd kv))) d1 ++
              map (fun kv => (fst kv, Py.convert_tuples_to_lists (snd kv))) d2).
Proof. simpl. rewrite map_app. reflexivity. Qed.

(** Line 118 of [search_file_tree]: [convert_metadata] is
    [convert_tuples_to_lists] on the metadata dict. *)
Lemma convert_metadata_to_value (m : metadata) :
  Py.convert_tuples_to_lists (metadata_to_value m)
    = metadata_to_value (convert_metadata m).
Proof.
  destruct m as [fp pk fl sh].
  unfold metadata_to_value, convert_metadata.
  cbn [folder_path primary_key files file_shapes].
  rewrite convert_dict_app, map_app. f_equal. f_equal; [| f_equal].
  - destruct pk; reflexivity.
  - destruct fl as [l |]; [| reflexivity].
    cbn [map fst snd]. do 2 f_equal.
    change (Py.convert_tuples_to_lists (Py.VList (map file_info_to_value l)))
      with (Py.VList (map Py.convert_tuples_to_lists (map file_info_to_value l))).
    rewrite convert_files_to_value. reflexivity.
  - destruct sh as [d |]; [| reflexivity].
    cbn [option_map map fst snd]. rewrite convert_shapes_to_value. reflexivity.
Qed.

(** ** Folder.validate *)

Lemma has_error_or_warning_false (fi : file_info) :
  has_error_or_warning fi = false <-> fi_error fi = None /\ fi_warning fi = None.
Proof.
  unfold has_error_or_warning.
  destruct (fi_error fi), (fi_warning fi); simpl; split;
    try (intros [? ?]); try intros ?; try discriminate; auto.
Qed.

Lemma inconsistent_false (shapes : list shape) :
  inconsistent shapes = false <-> shapes_agree shapes.
Proof.
  unfold inconsistent, shapes_agree.
  destruct shapes as [| s0 l]; [split; [intros _ ? ? [] | reflexivity] |].
  set (X := list_to_set (map tuple (s0 :: l)) : gset (list Z)).
  rewrite Nat.ltb_ge. split.
  - intros Hsize s1 s2 H1 H2.
    assert (Hin : forall s, In s (s0 :: l) -> tuple s ∈ X).
    { intros s Hs. apply elem_of_list_to_set, list_elem_of_In, in_map, Hs. }
    assert (H0 : 0 < size X).
    { destruct (decide (size X = 0)) as [E | ?]; [| lia].
      apply size_empty_inv in E. specialize (Hin s0 (or_introl eq_refl)).
      rewrite E in Hin. exact (False_ind _ (not_elem_of_empty _ Hin)). }
    apply (size_singleton_inv X); auto. lia.
  - intros Hall.
    assert (E : X = {[ tuple s0 ]}).
    { apply set_eq. intros x. rewrite elem_of_singleton.
      unfold X. rewrite elem_of_list_to_set, list_elem_of_In, in_map_iff. split.
      - intros (s & <- & Hs). apply Hall; [exact Hs | left; reflexivity].
      - intros ->. exists s0. split; [reflexivity | left; reflexivity]. }
    rewrite E, size_singleton. lia.
Qed.

Lemma validate_metadata_true (m : metadata) :
  validate_metadata m = true <-> manifest_consistent m.
Proof.
  unfold validate_metadata, manifest_consistent.
  rewrite !Forall_forall.
  destruct (existsb has_error_or_warning (get_files m)) eqn:Hf.
  - split; [discriminate |]. intros [H _].
    apply existsb_exists in Hf as (fi & Hin & Hfi).
    apply list_elem_of_In, H, has_error_or_warning_false in Hin. congruence.
  - destruct (existsb (fun kv => inconsistent (snd kv)) (get_file_shapes m)) eqn:Hs.
    + split; [discriminate |]. intros [_ H].
      apply existsb_exists in Hs as (kv & Hin & Hkv).
      apply list_elem_of_In, H, inconsistent_false in Hin. congruence.
    + split; [| reflexivity]. intros _. split.
      * intros fi Hin. apply has_error_or_warning_false.
        apply list_elem_of_In in Hin.
        destruct (has_error_or_warning fi) eqn:E; [| reflexivity].
        assert (existsb has_error_or_warning (get_files m) = true)
          by (apply existsb_exists; eauto).
        congruence.
      * intros kv Hin. apply inconsistent_false.
        apply list_elem_of_In in Hin.
        destruct (inconsistent (snd kv)) eqn:E; [| reflexivity].
        assert (existsb (fun kv => inconsistent (snd kv)) (get_file_shapes m) = true)
          by (apply existsb_exists; eauto).
        congruence.
Qed.

Lemma validate_all_true (ms : list metadata) :
  validate_all ms = true <-> Forall manifest_consistent ms.
Proof.
  induction ms as [| m rest IH]; simpl.
  - split; [constructor | reflexivity].
  - rewrite Forall_cons, <- IH, <- validate_metadata_true.
    destruct (validate_metadata m); intuition congruence.
Qed.

(** C1: [validate] returns true exactly when every manifest of the Folder
    is consistent in itself: no file record has an [error] or a [warning]
    and, for every key of its [file_shapes], the shapes agree by value.
    Nothing is compared across manifests: [two_folders] records the shape
    (2, 3) for [image] in one manifest and (5, 7) in the other, once as a
    list and once as a tuple, and validates. *)
Theorem C1_validate (f : Folder) :
  (validate f = true <-> Forall manifest_consistent (folder_metadata f)) /\
  (validate two_folders = true /\
   dict_get (get_file_shapes manifest_a) "image" = Some [Shape IsList [2; 3]%Z] /\
   dict_get (get_file_shapes manifest_b) "image"
     = Some [Shape IsList [5; 7]%Z; Shape IsTuple [5; 7]%Z]).
Proof.
  split; [apply validate_all_true |].
  split; [vm_compute; reflexivity | split; reflexivity].
Qed.

Lemma C1_validate_witness :
  Forall manifest_consistent (folder_metadata two_folders) /\
  validate two_folders = true.
Proof.
  assert (H : Forall manifest_consistent (folder_metadata two_folders)).
  { repeat constructor; simpl;
      intros s1 s2 H1 H2; simpl in H1, H2;
      repeat (destruct H1 as [<- | H1]); try contradiction;
      repeat (destruct H2 as [<- | H2]); try contradiction; reflexivity. }
  split; [exact H |].
  apply (proj1 (C1_validate two_folders)). exact H.
Defined.

(** ** Dictionaries *)

Lemma dict_get_set_eq {V} (d : dict V) k v : dict_get (dict_set d k v) k = Some v.
Proof.
  induction d as [| [k' v'] d IH]; simpl.
  - rewrite String.eqb_refl. reflexivity.
  - destruct (String.eqb k' k) eqn:E; simpl; rewrite E; auto.
Qed.

Lemma dict_get_set_ne {V} (d : dict V) k k' v :
  k <> k' -> dict_get (dict_set d k v) k' = dict_get d k'.
Proof.
  intros Hne. induction d as [| [k0 v0] d IH]; simpl.
  - apply String.eqb_neq in Hne. rewrite Hne. reflexivity.
  - destruct (String.eqb k0 k) eqn:E; simpl.
    + apply String.eqb_eq in E. subst k0.
      apply String.eqb_neq in Hne. rewrite Hne. reflexivity.
    + rewrite IH. reflexivity.
Qed.

Lemma dict_get_None {V} (d : dict V) k :
  ~ In k (map fst d) -> dict_get d k = None.
Proof.
  induction d as [| [k' v'] d IH]; simpl; [reflexivity |].
  intros H. destruct (String.eqb k' k) eqn:E.
  - apply String.eqb_eq in E. tauto.
  - apply IH. tauto.
Qed.

Lemma dict_set_keys {V} (d : dict V) k v :
  map fst (dict_set d k v) =
    if dict_contains d k then map fst d else map fst d ++ [k].
Proof.
  unfold dict_contains. induction d as [| [k' v'] d IH]; simpl; [reflexivity |].
  destruct (String.eqb k' k) eqn:E; simpl; [reflexivity |].
  rewrite IH. destruct (dict_get d k); reflexivity.
Qed.

Lemma dict_contains_In {V} (d : dict V) k :
  dict_contains d k = true <-> In k (map fst d).
Proof.
  unfold dict_contains. induction d as [| [k' v'] d IH]; simpl.
  - split; [discriminate | tauto].
  - destruct (String.eqb k' k) eqn:E.
    + apply String.eqb_eq in E. tauto.
    + apply String.eqb_neq in E. rewrite IH. tauto.
Qed.

Lemma dict_set_wf {V} (d : dict V) k v : dict_wf d -> dict_wf (dict_set d k v).
Proof.
  unfold dict_wf. intros Hd. rewrite dict_set_keys.
  destruct (dict_contains d k) eqn:E; [exact Hd |].
  apply NoDup_app. split; [exact Hd |]. split; [| apply NoDup_singleton].
  intros x Hx Hk. apply list_elem_of_In in Hx. apply list_elem_of_In in Hk.
  destruct Hk as [<- | []].
  apply dict_contains_In in Hx. congruence.
Qed.

(** ** Folder.get_shapes *)

Lemma get_shapes_items_get (items : dict (list shape)) (acc : dict (list Z)) k :
  dict_wf items ->
  dict_get (get_shapes_items items acc) k =
    match dict_get items k with
    | Some (s :: _) => Some (shape_dims s)
    | _ => dict_get acc k
    end.
Proof.
  unfold dict_wf. revert acc.
  induction items as [| [k' shapes] rest IH]; intros acc Hwf; simpl; [reflexivity |].
  simpl in Hwf. apply NoDup_cons in Hwf as [Hk' Hrest].
  rewrite list_elem_of_In in Hk'.
  destruct (String.eqb k' k) eqn:E.
  - apply String.eqb_eq in E. subst k'.
    destruct shapes as [| s l]; rewrite IH by exact Hrest;
      rewrite (dict_get_None rest k Hk'); [reflexivity |].
    apply dict_get_set_eq.
  - apply String.eqb_neq in E.
    destruct shapes as [| s l]; rewrite IH by exact Hrest;
      destruct (dict_get rest k) as [[| s' l'] |]; try reflexivity;
      apply dict_get_set_ne; exact E.
Qed.

Lemma get_shapes_items_wf (items : dict (list shape)) (acc : dict (list Z)) :
  dict_wf acc -> dict_wf (get_shapes_items items acc).
Proof.
  revert acc. induction items as [| [k shapes] rest IH]; intros acc Hacc; simpl.
  - exact Hacc.
  - destruct shapes; apply IH; [exact Hacc | apply dict_set_wf, Hacc].
Qed.

Lemma get_shapes_fold_get (ms : list metadata) (acc : dict (list Z)) k :
  Forall (fun m => dict_wf (get_file_shapes m)) ms ->
  dict_get
    (fold_left (fun all_shapes m => get_shapes_items (get_file_shapes m) all_shapes)
       ms acc) k =
    match last_first_shape ms k with
    | Some dims => Some dims
    | None => dict_get acc k
    end.
Proof.
  intros Hwf. revert acc.
  induction Hwf as [| m rest Hm _ IH]; intros acc; simpl; [reflexivity |].
  rewrite IH. destruct (last_first_shape rest k); [reflexivity |].
  rewrite get_shapes_items_get by exact Hm. unfold first_shape.
  destruct (dict_get (get_file_shapes m) k) as [[| s l] |]; reflexivity.
Qed.

Lemma get_shapes_fold_wf (ms : list metadata) (acc : dict (list Z)) :
  dict_wf acc ->
  dict_wf
    (fold_left (fun all_shapes m => get_shapes_items (get_file_shapes m) all_shapes)
       ms acc).
Proof.
  revert acc. induction ms as [| m rest IH]; intros acc Hacc; simpl.
  - exact Hacc.
  - apply IH, get_shapes_items_wf, Hacc.
Qed.

(** C8: for a Folder whose manifests are dicts (no key twice in a
    [file_shapes]), [get_shapes] is a dict that maps every key to the first
    shape of its list in the last manifest, in the order of the directory
    list, where that list is not empty; a key whose list is empty or absent
    in every manifest is not in the result. The merge is a total function:
    it does not fail when the manifests disagree, as for [two_folders],
    where (5, 7) from the second manifest replaces (2, 3) from the first. *)
Theorem C8_get_shapes (f : Folder) :
  Forall (fun m => dict_wf (get_file_shapes m)) (folder_metadata f) ->
  (forall k, dict_get (get_shapes f) k = last_first_shape (folder_metadata f) k) /\
  dict_wf (get_shapes f) /\
  get_shapes two_folders = [("image", [5; 7]%Z)].
Proof.
  intros Hwf. unfold get_shapes, get_shapes_all. split; [| split].
  - intros k. rewrite get_shapes_fold_get by exact Hwf.
    destruct (last_first_shape (folder_metadata f) k); reflexivity.
  - apply get_shapes_fold_wf. constructor.
  - reflexivity.
Qed.

Lemma C8_get_shapes_witness :
  dict_get (get_shapes two_folders) "image" = Some [5; 7]%Z /\
  dict_get (get_shapes two_folders) "image_sc" = None.
Proof.
  assert (Hwf : Forall (fun m => dict_wf (get_file_shapes m))
                  (folder_metadata two_folders)).
  { repeat constructor; simpl; intros H; apply elem_of_nil in H; exact H. }
  destruct (C8_get_shapes two_folders Hwf) as [Hget _].
  split; rewrite Hget; reflexivity.
Defined.

(** ** The scan loop *)

Lemma collect_all_keys_failure entries names shapes :
  snd (collect_all_keys entries names shapes) = first_failure_all_keys entries names.
Proof.
  revert shapes. induction names as [| n rest IH]; intros shapes; simpl; [reflexivity |].
  destruct (h5_getitem entries n) as [obj | e]; [| reflexivity].
  destruct obj; simpl; apply IH.
Qed.

Lemma collect_key_for_length_failure entries k shapes :
  snd (collect_key_for_length entries k shapes) = first_failure_key_for_length entries k.
Proof.
  unfold collect_key_for_length, first_failure_key_for_length.
  destruct (h5_contains entries k); [| reflexivity].
  destruct (h5_getitem entries k) as [obj | e]; [| reflexivity].
  destruct (h5_shape obj); reflexivity.
Qed.

(** With [hdf5_key_for_length], a file that raises has appended nothing. *)
Lemma collect_key_for_length_raise entries k shapes :
  first_failure_key_for_length entries k <> None ->
  fst (collect_key_for_length entries k shapes) = shapes.
Proof.
  unfold collect_key_for_length, first_failure_key_for_length.
  destruct (h5_contains entries k); [| reflexivity].
  destruct (h5_getitem entries k) as [obj | e]; [| reflexivity].
  destruct (h5_shape obj); [congruence | reflexivity].
Qed.

Lemma scan_file_files fs folder key kfl st name :
  st_files (scan_file fs folder key kfl st name) =
    st_files st ++ [record_of fs folder key kfl name].
Proof.
  unfold scan_file, record_of, read_failure, missing_key.
  destruct (h5_open fs folder name) as [msg | entries]; [reflexivity |].
  destruct (nonempty kfl) as [k |].
  - pose proof (collect_key_for_length_failure entries k (st_shapes st)) as H.
    destruct (collect_key_for_length entries k (st_shapes st)) as [shapes raised].
    simpl in H. rewrite <- H. destruct raised; reflexivity.
  - pose proof (collect_all_keys_failure entries (map fst entries) (st_shapes st)) as H.
    destruct (collect_all_keys entries (map fst entries) (st_shapes st)) as [shapes raised].
    simpl in H. rewrite <- H. destruct raised; reflexivity.
Qed.

Lemma scan_file_opened fs folder key kfl st name :
  st_opened (scan_file fs folder key kfl st name) =
    st_opened st ++ [path_join folder name].
Proof.
  unfold scan_file.
  destruct (h5_open fs folder name) as [msg | entries]; [reflexivity |].
  destruct (match nonempty kfl with
            | Some k => collect_key_for_length entries k (st_shapes st)
            | None => collect_all_keys entries (map fst entries) (st_shapes st)
            end) as [shapes [e |]]; reflexivity.
Qed.

Lemma scan_files_files fs folder key kfl names st :
  st_files (scan_files fs folder key kfl names st) =
    st_files st ++ map (record_of fs folder key kfl) names.
Proof.
  unfold scan_files. revert st.
  induction names as [| n rest IH]; intros st; simpl.
  - rewrite app_nil_r. reflexivity.
  - rewrite IH, scan_file_files, <- app_assoc. reflexivity.
Qed.

Lemma scan_files_opened fs folder key kfl names st :
  st_opened (scan_files fs folder key kfl names st) =
    st_opened st ++ map (path_join folder) names.
Proof.
  unfold scan_files. revert st.
  induction names as [| n rest IH]; intros st; simpl.
  - rewrite app_nil_r. reflexivity.
  - rewrite IH, scan_file_opened, <- app_assoc. reflexivity.
Qed.

Lemma record_of_name fs folder key kfl name :
  fi_name (record_of fs folder key kfl name) = name /\
  fi_path (record_of fs folder key kfl name) = path_join folder name.
Proof.
  unfold record_of.
  destruct (read_failure kfl (h5_open fs folder name)); split; reflexivity.
Qed.

Lemma record_of_error fs folder key kfl name :
  fi_error (record_of fs folder key kfl name) =
    read_failure kfl (h5_open fs folder name).
Proof.
  unfold record_of.
  destruct (read_failure kfl (h5_open fs folder name)); reflexivity.
Qed.

Lemma fresh_scan_files fs folder key kfl :
  files (fst (fresh_scan fs folder key kfl)) =
    Some (map (record_of fs folder key kfl) (hdf5_files fs folder)) /\
  folder_path (fst (fresh_scan fs folder key kfl)) = folder /\
  primary_key (fst (fresh_scan fs folder key kfl)) = key /\
  snd (fresh_scan fs folder key kfl) = map (path_join folder) (hdf5_files fs folder).
Proof.
  unfold fresh_scan; simpl.
  rewrite scan_files_files, scan_files_opened. auto.
Qed.

(** ** search_file_tree: the three ways through it *)

Lemma key_missing_decide key redo write :
  bool_decide (key = None) && (negb redo || write) = true <-> key_missing key redo write.
Proof.
  unfold key_missing.
  rewrite andb_true_iff, bool_decide_eq_true, orb_true_iff, negb_true_iff.
  reflexivity.
Qed.

Lemma search_file_tree_rejects fs folder key kfl redo write ro :
  key_missing key redo write ->
  search_file_tree fs folder key kfl redo write ro =
    Outcome (Raise (ValueError key_required_message)) fs [].
Proof.
  intros H%key_missing_decide. unfold search_file_tree. rewrite H. reflexivity.
Qed.

Lemma search_file_tree_loads fs folder key kfl write ro m :
  ~ key_missing key false write ->
  dataset_info fs folder = Some (YamlDoc m) ->
  search_file_tree fs folder key kfl false write ro = Outcome (Ok m) fs [].
Proof.
  intros Hk Hinfo. unfold search_file_tree.
  destruct (bool_decide (key = None) && (negb false || write)) eqn:E.
  - apply key_missing_decide in E. contradiction.
  - simpl. rewrite Hinfo. reflexivity.
Qed.

Lemma search_file_tree_scans fs folder key kfl redo write ro :
  ~ key_missing key redo write ->
  fresh fs folder redo ->
  search_file_tree fs folder key kfl redo write ro =
    let m := fst (fresh_scan fs folder key kfl) in
    let opened := snd (fresh_scan fs folder key kfl) in
    if write && negb ro then
      match write_dataset_info fs folder m with
      | Ok fs' => Outcome (Ok m) fs' opened
      | Raise e => Outcome (Raise e) fs opened
      end
    else Outcome (Ok m) fs opened.
Proof.
  intros Hk Hfresh. unfold search_file_tree.
  destruct (bool_decide (key = None) && (negb redo || write)) eqn:E.
  - apply key_missing_decide in E. contradiction.
  - assert (Hnone : (if negb redo then dataset_info fs folder else None) = None).
    { destruct Hfresh as [-> | ->]; [reflexivity | destruct (negb redo); reflexivity]. }
    rewrite Hnone. destruct (fresh_scan fs folder key kfl) as [m opened]. reflexivity.
Qed.

(** ** The key requirement *)

Lemma key_missing_dec key redo write :
  {key_missing key redo write} + {~ key_missing key redo write}.
Proof.
  destruct (bool_decide (key = None) && (negb redo || write)) eqn:E.
  - left. apply key_missing_decide, E.
  - right. intros H%key_missing_decide. congruence.
Qed.

Lemma search_file_tree_proceeds fs folder key kfl redo write ro :
  ~ key_missing key redo write ->
  (exists m, out_result (search_file_tree fs folder key kfl redo write ro) = Ok m) \/
  (exists msg, out_result (search_file_tree fs folder key kfl redo write ro)
               = Raise (YAMLError msg)) \/
  (exists p, out_result (search_file_tree fs folder key kfl redo write ro)
             = Raise (FileNotFoundError p)).
Proof.
  intros Hk.
  destruct redo.
  - rewrite search_file_tree_scans; [| assumption | left; reflexivity]. simpl.
    destruct (write && negb ro); [| left; eauto].
    unfold write_dataset_info. destruct (fs !! folder); simpl; eauto.
  - destruct (dataset_info fs folder) as [[m | msg] |] eqn:Hinfo.
    + rewrite (search_file_tree_loads _ _ _ _ _ _ m) by auto. left; eauto.
    + unfold search_file_tree.
      destruct (bool_decide (key = None) && (negb false || write)) eqn:E;
        [apply key_missing_decide in E; contradiction |].
      simpl. rewrite Hinfo. simpl. right; left; eauto.
    + rewrite search_file_tree_scans; [| assumption | right; assumption]. simpl.
      destruct (write && negb ro); [| left; eauto].
      unfold write_dataset_info. destruct (fs !! folder); simpl; eauto.
Qed.

(** C3: [search_file_tree] raises [ValueError] exactly when [key] is
    [None] and ([redo] is false or [write] is true). It then raises before
    it reads anything. In every other call the guard is passed: the call
    returns a manifest, or fails later on the cache file or on the write. *)
Theorem C3_key_required fs folder key kfl redo write ro :
  ((exists msg, out_result (search_file_tree fs folder key kfl redo write ro)
                = Raise (ValueError msg))
   <-> key = None /\ (redo = false \/ write = true)) /\
  (key = None /\ (redo = false \/ write = true) ->
   search_file_tree fs folder key kfl redo write ro
     = Outcome (Raise (ValueError key_required_message)) fs []).
Proof.
  split; [| apply search_file_tree_rejects].
  split.
  - intros [msg Hmsg].
    destruct (key_missing_dec key redo write) as [H | H]; [exact H |].
    destruct (search_file_tree_proceeds fs folder key kfl redo write ro H)
      as [[m Hm] | [[msg' Hm] | [p' Hm]]]; congruence.
  - intros H. rewrite search_file_tree_rejects by exact H. simpl. eauto.
Qed.

Lemma C3_key_required_witness :
  out_result (search_file_tree data_fs "data" None None false true false)
    = Raise (ValueError key_required_message) /\
  out_result (search_file_tree data_fs "data" None None true true false)
    = Raise (ValueError key_required_message) /\
  (exists m, out_result (search_file_tree data_fs "data" None None true false false)
             = Ok m).
Proof.
  split; [| split].
  - rewrite (proj2 (C3_key_required data_fs "data" None None false true false));
      [reflexivity | split; [reflexivity | left; reflexivity]].
  - rewrite (proj2 (C3_key_required data_fs "data" None None true true false));
      [reflexivity | split; [reflexivity | right; reflexivity]].
  - eexists. vm_compute. reflexivity.
Defined.

(** ** The cached manifest *)

(** C2, as stated, fails: [cached_fs] holds a [dataset_info.yaml] that
    parses, and the call with [redo] false and no key does not return its
    content: it raises the [ValueError] of the key requirement, whatever
    [write] is. *)
Lemma C2_no_key_no_cached_load :
  dataset_info cached_fs "data" = Some (YamlDoc manifest_b) /\
  search_file_tree cached_fs "data" None None false true false
    = Outcome (Raise (ValueError key_required_message)) cached_fs [] /\
  search_file_tree cached_fs "data" None None false false false
    = Outcome (Raise (ValueError key_required_message)) cached_fs [].
Proof. split; [| split]; reflexivity. Qed.

(** C2, amended: when [dataset_info.yaml] exists and parses, a call with
    [redo] false and a key returns the parsed content as it is, opens no
    HDF5 file and leaves the file system as it was, and the outcome is the
    same whichever key and [hdf5_key_for_length] are passed; without a key
    the call raises the [ValueError] of the key requirement and the file is
    not read. *)
Theorem C2_cached_load fs folder m key kfl write ro :
  dataset_info fs folder = Some (YamlDoc m) ->
  search_file_tree fs folder key kfl false write ro =
    match key with
    | Some _ => Outcome (Ok m) fs []
    | None => Outcome (Raise (ValueError key_required_message)) fs []
    end /\
  (forall k k' kfl',
     search_file_tree fs folder (Some k') kfl' false write ro
       = search_file_tree fs folder (Some k) kfl false write ro).
Proof.
  intros Hinfo.
  assert (H : forall k kl,
            search_file_tree fs folder (Some k) kl false write ro
            = Outcome (Ok m) fs []).
  { intros k kl. apply search_file_tree_loads; [| exact Hinfo].
    intros [Hnone _]. discriminate. }
  split.
  - destruct key as [k |]; [apply H |].
    apply search_file_tree_rejects. split; [reflexivity | left; reflexivity].
  - intros k k' kfl'. rewrite !H. reflexivity.
Qed.

(** The stored manifest has a shape that is a tuple and a primary key other
    than the one passed: both come back as stored. *)
Lemma C2_cached_load_witness :
  search_file_tree cached_fs "data" (Some "other") (Some "image_sc") false true false
    = Outcome (Ok manifest_b) cached_fs [] /\
  convert_metadata manifest_b <> manifest_b.
Proof.
  split; [| discriminate].
  assert (Hinfo : dataset_info cached_fs "data" = Some (YamlDoc manifest_b))
    by reflexivity.
  exact (proj1 (C2_cached_load cached_fs "data" manifest_b (Some "other")
                  (Some "image_sc") true false Hinfo)).
Defined.

(** ** Read-only scans *)

Lemma search_file_tree_read_only_fs fs folder key kfl redo write :
  out_fs (search_file_tree fs folder key kfl redo write true) = fs.
Proof.
  unfold search_file_tree.
  destruct (bool_decide (key = None) && (negb redo || write)); [reflexivity |].
  destruct (if negb redo then dataset_info fs folder else None) as [[m | msg] |];
    try reflexivity.
  destruct (fresh_scan fs folder key kfl) as [m opened].
  rewrite andb_false_r. reflexivity.
Qed.

Lemma search_file_tree_read_only_result fs folder key kfl redo write ro :
  is_Some (fs !! folder) ->
  out_result (search_file_tree fs folder key kfl redo write ro)
    = out_result (search_file_tree fs folder key kfl redo write true) /\
  out_opened (search_file_tree fs folder key kfl redo write ro)
    = out_opened (search_file_tree fs folder key kfl redo write true).
Proof.
  intros [d Hd]. unfold search_file_tree.
  destruct (bool_decide (key = None) && (negb redo || write)); [auto |].
  destruct (if negb redo then dataset_info fs folder else None) as [[m | msg] |];
    auto.
  destruct (fresh_scan fs folder key kfl) as [m opened].
  rewrite andb_false_r. unfold write_dataset_info. rewrite Hd.
  destruct (write && negb ro); auto.
Qed.

(** The call with [read_only] false returns what the call with
    [read_only] true returns, but for one case: the folder does not exist
    and [write] is true. *)
Lemma search_file_tree_read_only_relation fs folder key kfl redo write :
  (out_result (search_file_tree fs folder key kfl redo write false)
     = out_result (search_file_tree fs folder key kfl redo write true) /\
   out_opened (search_file_tree fs folder key kfl redo write false)
     = out_opened (search_file_tree fs folder key kfl redo write true)) \/
  (fs !! folder = None /\ write = true /\
   out_result (search_file_tree fs folder key kfl redo write false)
     = Raise (FileNotFoundError (path_join folder "dataset_info.yaml")) /\
   out_result (search_file_tree fs folder key kfl redo write true)
     = Ok (Metadata folder key (Some []) (Some []))).
Proof.
  unfold search_file_tree.
  destruct (bool_decide (key = None) && (negb redo || write)); [left; auto |].
  destruct (if negb redo then dataset_info fs folder else None) as [[m | msg] |];
    [left; auto | left; auto |].
  destruct (fresh_scan fs folder key kfl) as [m opened] eqn:Hscan.
  rewrite andb_false_r. destruct write; cbn [andb negb]; [| left; auto].
  unfold write_dataset_info.
  destruct (fs !! folder) as [d |] eqn:Hd; [left; auto |].
  right. split; [reflexivity |]. split; [reflexivity |]. split; [reflexivity |].
  unfold fresh_scan, hdf5_files, glob in Hscan. rewrite Hd in Hscan.
  injection Hscan as <- _. reflexivity.
Qed.

(** C9: a call with [read_only] true leaves the file system as it was,
    whatever [write] is: [dataset_info.yaml] is neither created nor
    changed. Whenever the same call with [read_only] false returns a
    manifest, the call with [read_only] true returns that manifest and
    opens the same files; the two calls differ in what they return only
    when the folder does not exist and [write] is true, where the writing
    call raises and the read-only call returns the empty manifest. A
    read-only call that is a fresh scan returns the freshly scanned
    manifest, which the call with [write] true and [read_only] false also
    stores. *)
Theorem C9_read_only fs folder key kfl redo write :
  out_fs (search_file_tree fs folder key kfl redo write true) = fs /\
  (forall m,
     out_result (search_file_tree fs folder key kfl redo write false) = Ok m ->
     out_result (search_file_tree fs folder key kfl redo write true) = Ok m /\
     out_opened (search_file_tree fs folder key kfl redo write true)
       = out_opened (search_file_tree fs folder key kfl redo write false)) /\
  (out_result (search_file_tree fs folder key kfl redo write true)
     = out_result (search_file_tree fs folder key kfl redo write false) \/
   (fs !! folder = None /\ write = true /\
    out_result (search_file_tree fs folder key kfl redo write false)
      = Raise (FileNotFoundError (path_join folder "dataset_info.yaml")) /\
    out_result (search_file_tree fs folder key kfl redo write true)
      = Ok (Metadata folder key (Some []) (Some [])))) /\
  (fresh fs folder redo -> ~ key_missing key redo write ->
   out_result (search_file_tree fs folder key kfl redo write true)
     = Ok (fst (fresh_scan fs folder key kfl))) /\
  (fresh fs folder redo -> key <> None -> is_Some (fs !! folder) ->
   dataset_info (out_fs (search_file_tree fs folder key kfl redo true false)) folder
     = Some (YamlDoc (fst (fresh_scan fs folder key kfl)))).
Proof.
  split; [apply search_file_tree_read_only_fs |].
  split; [| split; [| split]].
  - intros m Hm.
    destruct (search_file_tree_read_only_relation fs folder key kfl redo write)
      as [[H1 H2] | (_ & _ & Hraise & _)]; [| congruence].
    split; congruence.
  - destruct (search_file_tree_read_only_relation fs folder key kfl redo write)
      as [[H1 H2] | H]; [left; congruence | right; exact H].
  - intros Hfresh Hkey.
    rewrite search_file_tree_scans by assumption. simpl.
    rewrite andb_false_r. reflexivity.
  - intros Hfresh Hkey [d Hd].
    rewrite search_file_tree_scans; [| intros [Hnone _]; contradiction | assumption].
    simpl. unfold write_dataset_info. rewrite Hd. simpl.
    unfold dataset_info. rewrite lookup_insert_eq. reflexivity.
Qed.

Lemma C9_read_only_witness :
  out_fs (search_file_tree data_fs "data" (Some "image") None false true true)
    = data_fs /\
  dataset_info data_fs "data" = None /\
  out_result (search_file_tree data_fs "data" (Some "image") None false true true)
    = Ok (fst (fresh_scan data_fs "data" (Some "image") None)) /\
  out_result (search_file_tree data_fs "data" (Some "image") None false true false)
    = Ok (fst (fresh_scan data_fs "data" (Some "image") None)) /\
  dataset_info
    (out_fs (search_file_tree data_fs "data" (Some "image") None false true false))
    "data"
    = Some (YamlDoc (fst (fresh_scan data_fs "data" (Some "image") None))).
Proof.
  destruct (C9_read_only data_fs "data" (Some "image") None false true)
    as (Hfs & Hsame & _ & _ & Hstored).
  assert (Hw : out_result (search_file_tree data_fs "data" (Some "image") None
                             false true false)
               = Ok (fst (fresh_scan data_fs "data" (Some "image") None)))
    by (vm_compute; reflexivity).
  split; [exact Hfs |].
  split; [reflexivity |].
  split; [exact (proj1 (Hsame _ Hw)) |].
  split; [exact Hw |].
  apply Hstored; [right; reflexivity | discriminate | eexists; reflexivity].
Defined.

(** ** The order of file names *)

Lemma str_le_cons a s b t :
  str_le (String a s) (String b t) <->
  (Ascii.N_of_ascii a < Ascii.N_of_ascii b)%N \/ (a = b /\ str_le s t).
Proof.
  unfold str_le, String.leb. simpl. unfold Ascii.compare.
  destruct (N.compare_spec (Ascii.N_of_ascii a) (Ascii.N_of_ascii b)) as [E | L | G].
  - assert (a = b) by (rewrite <- (Ascii.ascii_N_embedding a), <- (Ascii.ascii_N_embedding b), E;
                       reflexivity).
    subst b. split; [auto | intros [H | [_ H]]; [lia | exact H]].
  - split; [auto | reflexivity].
  - split; [discriminate |]. intros [H | [-> _]]; lia.
Qed.

#[global] Instance str_le_total : Total str_le.
Proof. intros s1 s2. apply String.leb_total. Qed.

#[global] Instance str_le_antisymm : AntiSymm (=) str_le.
Proof. intros s1 s2. apply String.leb_antisym. Qed.

#[global] Instance str_le_trans : Transitive str_le.
Proof.
  intros s1. induction s1 as [| a s1 IH]; intros s2 s3 H12 H23.
  - destruct s3; reflexivity.
  - destruct s2 as [| b s2]; [discriminate H12 |].
    destruct s3 as [| c s3]; [discriminate H23 |].
    apply str_le_cons in H12. apply str_le_cons in H23. apply str_le_cons.
    destruct H12 as [L12 | [-> H12]], H23 as [L23 | [-> H23]].
    + left. lia.
    + left. exact L12.
    + left. exact L23.
    + right. split; [reflexivity | eapply IH; eassumption].
Qed.

Lemma sorted_Sorted (l : list string) : StronglySorted str_le (sorted l).
Proof. apply StronglySorted_merge_sort; apply _. Qed.

Lemma sorted_Permutation (l : list string) : Permutation (sorted l) l.
Proof. apply merge_sort_Permutation. Qed.

Lemma sorted_In (l : list string) x : In x (sorted l) <-> In x l.
Proof.
  split; apply Permutation_in; [| symmetry]; apply sorted_Permutation.
Qed.

(** ** What glob finds *)

Lemma ends_with_cons suffix c rest :
  ends_with suffix (String c rest) =
    String.eqb (String c rest) suffix || ends_with suffix rest.
Proof. reflexivity. Qed.

(** No name matches both [*.h5] and [*.hdf5]. *)
Lemma extensions_disjoint (name : string) :
  ends_with ".h5" name = true -> ends_with ".hdf5" name = true -> False.
Proof.
  induction name as [| c rest IH]; [discriminate |].
  intros H1 H2. rewrite ends_with_cons in H1, H2.
  apply orb_prop in H1 as [H1 | H1].
  - apply String.eqb_eq in H1. injection H1 as Hc Hrest. subst c rest.
    vm_compute in H2. discriminate.
  - apply orb_prop in H2 as [H2 | H2]; [| auto].
    apply String.eqb_eq in H2. injection H2 as Hc Hrest. subst rest.
    vm_compute in H1. discriminate.
Qed.

Lemma glob_In fs folder suffix name :
  In name (glob fs folder suffix) <->
  exists d, fs !! folder = Some d /\ is_Some (dir_files d !! name) /\
            ends_with suffix name = true.
Proof.
  unfold glob. destruct (fs !! folder) as [d |].
  - rewrite <- list_elem_of_In, list_elem_of_filter, list_elem_of_fmap. split.
    + intros [Hs ([n f] & -> & Hin)]. apply elem_of_map_to_list in Hin.
      exists d. simpl in *. eauto.
    + intros (d' & [= <-] & [f Hf] & Hs). split; [exact Hs |].
      exists (name, f). split; [reflexivity | apply elem_of_map_to_list, Hf].
  - split; [intros [] | intros (d & [=] & _)].
Qed.

Lemma glob_NoDup fs folder suffix : NoDup (glob fs folder suffix).
Proof.
  unfold glob. destruct (fs !! folder) as [d |]; [| constructor].
  apply NoDup_filter, NoDup_fst_map_to_list.
Qed.

Lemma hdf5_files_In fs folder name :
  In name (hdf5_files fs folder) <->
  exists d, fs !! folder = Some d /\ is_Some (dir_files d !! name) /\
            (ends_with ".h5" name = true \/ ends_with ".hdf5" name = true).
Proof.
  unfold hdf5_files. rewrite in_app_iff, !sorted_In, !glob_In. split.
  - intros [(d & ? & ? & ?) | (d & ? & ? & ?)]; exists d; auto.
  - intros (d & ? & ? & [? | ?]); [left | right]; exists d; auto.
Qed.

Lemma hdf5_files_NoDup fs folder : NoDup (hdf5_files fs folder).
Proof.
  unfold hdf5_files. apply NoDup_app. split; [| split].
  - rewrite sorted_Permutation. apply glob_NoDup.
  - intros x H1 H2. rewrite list_elem_of_In in H1, H2.
    apply sorted_In, glob_In in H1 as (_ & _ & _ & H1).
    apply sorted_In, glob_In in H2 as (_ & _ & _ & H2).
    exact (extensions_disjoint x H1 H2).
  - rewrite sorted_Permutation. apply glob_NoDup.
Qed.

Lemma path_join_inj folder : Inj (=) (=) (path_join folder).
Proof.
  intros n1 n2. unfold path_join.
  induction folder as [| c folder IH]; simpl.
  - intros [= H]. exact H.
  - intros [= H]. auto.
Qed.

(** ** Fresh scans *)

Lemma search_file_tree_fresh_Ok fs folder key kfl redo write ro m :
  fresh fs folder redo ->
  out_result (search_file_tree fs folder key kfl redo write ro) = Ok m ->
  m = fst (fresh_scan fs folder key kfl).
Proof.
  intros Hfresh Hok.
  destruct (key_missing_dec key redo write) as [Hk | Hk].
  - rewrite search_file_tree_rejects in Hok by exact Hk. discriminate.
  - rewrite search_file_tree_scans in Hok by assumption. cbv zeta in Hok.
    destruct (write && negb ro).
    + destruct (write_dataset_info fs folder (fst (fresh_scan fs folder key kfl)));
        cbn [out_result] in Hok; congruence.
    + cbn [out_result] in Hok. congruence.
Qed.

Lemma search_file_tree_fresh_returns fs folder key kfl redo write ro :
  fresh fs folder redo ->
  ~ key_missing key redo write ->
  is_Some (fs !! folder) \/ write && negb ro = false ->
  out_result (search_file_tree fs folder key kfl redo write ro)
    = Ok (fst (fresh_scan fs folder key kfl)) /\
  out_opened (search_file_tree fs folder key kfl redo write ro)
    = map (path_join folder) (hdf5_files fs folder).
Proof.
  intros Hfresh Hk Hw.
  rewrite search_file_tree_scans by assumption. simpl.
  destruct (fresh_scan_files fs folder key kfl) as (_ & _ & _ & Hopened).
  destruct (write && negb ro) eqn:E.
  - destruct Hw as [[d Hd] | ?]; [| discriminate].
    unfold write_dataset_info. rewrite Hd. simpl. auto.
  - simpl. auto.
Qed.

Lemma fresh_get_files fs folder key kfl :
  get_files (fst (fresh_scan fs folder key kfl)) =
    map (record_of fs folder key kfl) (hdf5_files fs folder).
Proof.
  unfold get_files.
  destruct (fresh_scan_files fs folder key kfl) as (-> & _). reflexivity.
Qed.

Lemma map_record_of_names fs folder key kfl names :
  map fi_name (map (record_of fs folder key kfl) names) = names /\
  map fi_path (map (record_of fs folder key kfl) names) = map (path_join folder) names.
Proof.
  induction names as [| n rest [IH1 IH2]]; simpl; [auto |].
  destruct (record_of_name fs folder key kfl n) as [-> ->].
  rewrite IH1, IH2. auto.
Qed.

(** C5, as stated, fails: in [data_fs] the scan records [b.h5], [c.h5] and
    then [a.hdf5]; the names are not sorted. *)
Lemma C5_not_sorted_by_name :
  exists m,
    out_result (search_file_tree data_fs "data" (Some "image") None true false false)
      = Ok m /\
    map fi_name (get_files m) = ["b.h5"; "c.h5"; "a.hdf5"] /\
    ~ Sorted str_le (map fi_name (get_files m)).
Proof.
  eexists. split; [vm_compute; reflexivity |].
  split; [reflexivity |].
  simpl. intros H.
  apply Sorted_inv in H as [H _].
  apply Sorted_inv in H as [_ H].
  apply HdRel_inv in H. vm_compute in H. discriminate.
Qed.

(** C5, amended: the files of a freshly scanned manifest are, by name, the
    [*.h5] files of the folder sorted by name followed by its [*.hdf5] files
    sorted by name: one record for every file of the folder that matches one
    of the two patterns and no other record, no name and no path twice, each
    path being the folder path joined with the name. *)
Theorem C5_discovery_order fs folder key kfl redo write ro m :
  fresh fs folder redo ->
  out_result (search_file_tree fs folder key kfl redo write ro) = Ok m ->
  exists h5 hdf5,
    map fi_name (get_files m) = h5 ++ hdf5 /\
    StronglySorted str_le h5 /\
    StronglySorted str_le hdf5 /\
    (forall name, In name h5 <->
       exists d, fs !! folder = Some d /\ is_Some (dir_files d !! name) /\
                 ends_with ".h5" name = true) /\
    (forall name, In name hdf5 <->
       exists d, fs !! folder = Some d /\ is_Some (dir_files d !! name) /\
                 ends_with ".hdf5" name = true) /\
    NoDup (map fi_name (get_files m)) /\
    NoDup (map fi_path (get_files m)) /\
    map fi_path (get_files m) = map (path_join folder) (map fi_name (get_files m)).
Proof.
  intros Hfresh Hok.
  apply search_file_tree_fresh_Ok in Hok; [| exact Hfresh]. subst m.
  rewrite fresh_get_files.
  destruct (map_record_of_names fs folder key kfl (hdf5_files fs folder)) as [-> ->].
  exists (sorted (glob fs folder ".h5")), (sorted (glob fs folder ".hdf5")).
  split; [reflexivity |].
  split; [apply sorted_Sorted |].
  split; [apply sorted_Sorted |].
  split; [intros name; rewrite sorted_In; apply glob_In |].
  split; [intros name; rewrite sorted_In; apply glob_In |].
  split; [apply hdf5_files_NoDup |].
  split; [| reflexivity].
  apply (NoDup_fmap_2 (path_join folder)), hdf5_files_NoDup.
Qed.

Lemma C5_discovery_order_witness :
  exists m,
    out_result (search_file_tree data_fs "data" (Some "image") None false true false)
      = Ok m /\
    NoDup (map fi_path (get_files m)) /\
    map fi_path (get_files m) = ["data/b.h5"; "data/c.h5"; "data/a.hdf5"].
Proof.
  eexists. split; [vm_compute; reflexivity |].
  split; [| reflexivity].
  assert (Hfresh : fresh data_fs "data" false) by (right; reflexivity).
  destruct (C5_discovery_order data_fs "data" (Some "image") None false true false _
              Hfresh eq_refl)
    as (h5 & hdf5 & _ & _ & _ & _ & _ & _ & Hpaths & _).
  exact Hpaths.
Defined.

(** ** Files that cannot be read *)

(** C6: when the open or the read of a discovered file fails during a
    fresh scan, the call still returns a manifest; its files are the
    discovered files in order, one record each; the record of the failed
    file holds its path, its name and the failure description and nothing
    else; and every discovered file was opened, those after the failed one
    too. *)
Theorem C6_failure_is_recorded fs folder key kfl redo write ro name msg :
  fresh fs folder redo ->
  ~ key_missing key redo write ->
  In name (hdf5_files fs folder) ->
  read_failure kfl (h5_open fs folder name) = Some msg ->
  exists m,
    out_result (search_file_tree fs folder key kfl redo write ro) = Ok m /\
    map fi_name (get_files m) = hdf5_files fs folder /\
    (exists i, hdf5_files fs folder !! i = Some name /\
               get_files m !! i
                 = Some (FileInfo (path_join folder name) name None (Some msg))) /\
    out_opened (search_file_tree fs folder key kfl redo write ro)
      = map (path_join folder) (hdf5_files fs folder).
Proof.
  intros Hfresh Hk Hin Hfail.
  assert (Hd : is_Some (fs !! folder)).
  { apply hdf5_files_In in Hin as (d & Hd & _). eauto. }
  destruct (search_file_tree_fresh_returns fs folder key kfl redo write ro)
    as [Hres Hopened]; auto.
  exists (fst (fresh_scan fs folder key kfl)).
  split; [exact Hres |].
  rewrite fresh_get_files.
  split; [apply map_record_of_names |].
  split; [| exact Hopened].
  apply list_elem_of_In, list_elem_of_lookup in Hin as [i Hi].
  exists i. split; [exact Hi |].
  change (map (record_of fs folder key kfl) (hdf5_files fs folder))
    with (record_of fs folder key kfl <$> hdf5_files fs folder).
  rewrite list_lookup_fmap, Hi. simpl.
  unfold record_of. rewrite Hfail. reflexivity.
Qed.

Lemma C6_failure_is_recorded_witness :
  exists m,
    out_result (search_file_tree data_fs "data" (Some "image") None false true false)
      = Ok m /\
    map fi_name (get_files m) = ["b.h5"; "c.h5"; "a.hdf5"] /\
    get_files m !! 1
      = Some (FileInfo "data/c.h5" "c.h5" None (Some "file signature not found")).
Proof.
  assert (Hfresh : fresh data_fs "data" false) by (right; reflexivity).
  assert (Hk : ~ key_missing (Some "image") false true)
    by (intros [H _]; discriminate).
  assert (Hin : In "c.h5" (hdf5_files data_fs "data"))
    by (vm_compute; auto).
  assert (Hfail : read_failure None (h5_open data_fs "data" "c.h5")
                  = Some "file signature not found") by reflexivity.
  destruct (C6_failure_is_recorded data_fs "data" (Some "image") None false true false
              "c.h5" "file signature not found" Hfresh Hk Hin Hfail)
    as (m & Hm & Hnames & _ & _).
  exists m. split; [exact Hm |].
  assert (E : Ok m = Ok (fst (fresh_scan data_fs "data" (Some "image") None)))
    by (rewrite <- Hm; vm_compute; reflexivity).
  injection E as ->. split; reflexivity.
Defined.

(** ** Empty datasets *)

Lemma validate_all_empty (ms : list metadata) :
  Forall empty_manifest ms -> validate_all ms = true /\ get_shapes_all ms = [].
Proof.
  intros H. split.
  - induction H as [| m rest [Hf Hs] _ IH]; simpl; [reflexivity |].
    unfold validate_metadata. rewrite Hf, Hs. simpl. exact IH.
  - unfold get_shapes_all.
    enough (Hacc : forall acc : dict (list Z),
              fold_left (fun all_shapes m =>
                           get_shapes_items (get_file_shapes m) all_shapes) ms acc
              = acc) by apply Hacc.
    induction H as [| m rest [Hf Hs] _ IH]; intros acc; simpl; [reflexivity |].
    rewrite Hs. simpl. apply IH.
Qed.

Lemma hdf5_files_missing_folder fs folder :
  fs !! folder = None -> hdf5_files fs folder = [].
Proof.
  intros H. unfold hdf5_files, glob. rewrite H. reflexivity.
Qed.

Lemma fresh_scan_empty fs folder key kfl :
  hdf5_files fs folder = [] ->
  fresh_scan fs folder key kfl = (Metadata folder key (Some []) (Some []), []).
Proof.
  intros H. unfold fresh_scan. rewrite H. reflexivity.
Qed.

(** C10: a Folder whose manifests all have no files and no shapes
    validates and has no shapes. A fresh scan that finds no matching file
    returns such a manifest; a folder that does not exist has no matching
    file, and its scan returns when nothing is written. *)
Theorem C10_empty_dataset (f : Folder) fs folder key kfl redo write ro :
  (Forall empty_manifest (folder_metadata f) ->
   validate f = true /\ get_shapes f = []) /\
  (fresh fs folder redo ->
   ~ key_missing key redo write ->
   hdf5_files fs folder = [] ->
   is_Some (fs !! folder) \/ write && negb ro = false ->
   out_result (search_file_tree fs folder key kfl redo write ro)
     = Ok (Metadata folder key (Some []) (Some [])) /\
   out_opened (search_file_tree fs folder key kfl redo write ro) = [] /\
   empty_manifest (Metadata folder key (Some []) (Some []))) /\
  (fs !! folder = None -> hdf5_files fs folder = []).
Proof.
  split; [apply validate_all_empty |].
  split; [| apply hdf5_files_missing_folder].
  intros Hfresh Hk Hnone Hw.
  destruct (search_file_tree_fresh_returns fs folder key kfl redo write ro)
    as [Hres Hopened]; auto.
  rewrite Hres, Hopened, (fresh_scan_empty fs folder key kfl Hnone), Hnone.
  repeat split.
Qed.

(** The Folder of the tests: a path that does not exist, scanned with
    [redo=True] and [write=False]. *)
Lemma C10_empty_dataset_witness :
  exists f,
    out_result
      (Folder_init ∅ (OnePath "nonexistent/path") (Some "image") None
         (Some (Kwargs None None (Some true) (Some false) None)) false) = Ok f /\
    Forall empty_manifest (folder_metadata f) /\
    validate f = true /\ get_shapes f = [] /\
    out_result (search_file_tree ∅ "nonexistent/path" (Some "image") None
                  true false false)
      = Ok (Metadata "nonexistent/path" (Some "image") (Some []) (Some [])).
Proof.
  eexists. split; [vm_compute; reflexivity |].
  assert (H : Forall empty_manifest
                [Metadata "nonexistent/path" (Some "image") (Some []) (Some [])]).
  { repeat constructor. }
  split; [exact H |].
  destruct (C10_empty_dataset
              (MkFolder ["nonexistent/path"] "image" None false
                 [Metadata "nonexistent/path" (Some "image") (Some []) (Some [])])
              ∅ "nonexistent/path" (Some "image") None true false false)
    as (Hfolder & Hscan & Hmissing).
  destruct (Hfolder H) as [Hv Hs].
  split; [exact Hv |]. split; [exact Hs |].
  apply Hscan.
  - left; reflexivity.
  - intros [Hnone _]. discriminate.
  - apply Hmissing. reflexivity.
  - right; reflexivity.
Defined.

(** ** Shapes and failed files *)

Lemma scan_file_shapes fs folder key kfl st name :
  st_shapes (scan_file fs folder key kfl st name)
    = shapes_after fs folder kfl (st_shapes st) name.
Proof.
  unfold scan_file, shapes_after.
  destruct (h5_open fs folder name) as [msg | entries]; [reflexivity |].
  destruct (match nonempty kfl with
            | Some k => collect_key_for_length entries k (st_shapes st)
            | None => collect_all_keys entries (map fst entries) (st_shapes st)
            end) as [shapes [e |]]; reflexivity.
Qed.

Lemma scan_files_shapes fs folder key kfl names st :
  st_shapes (scan_files fs folder key kfl names st)
    = fold_left (shapes_after fs folder kfl) names (st_shapes st).
Proof.
  unfold scan_files. revert st.
  induction names as [| n rest IH]; intros st; simpl; [reflexivity |].
  rewrite IH, scan_file_shapes. reflexivity.
Qed.

Lemma collect_all_keys_shapes entries names shapes :
  fst (collect_all_keys entries names shapes)
    = add_shapes shapes (shapes_read_all_keys entries names).
Proof.
  revert shapes. induction names as [| n rest IH]; intros shapes; simpl; [reflexivity |].
  destruct (h5_getitem entries n) as [[dims | | msg] | e]; simpl;
    try reflexivity; apply IH.
Qed.

Lemma collect_key_for_length_shapes entries k shapes :
  fst (collect_key_for_length entries k shapes)
    = add_shapes shapes (shapes_read_key_for_length entries k).
Proof.
  unfold collect_key_for_length, shapes_read_key_for_length.
  destruct (h5_contains entries k); [| reflexivity].
  destruct (h5_getitem entries k) as [[dims | | msg] | e]; reflexivity.
Qed.

Lemma shapes_after_read fs folder kfl shapes name :
  shapes_after fs folder kfl shapes name
    = add_shapes shapes (shapes_read kfl (h5_open fs folder name)).
Proof.
  unfold shapes_after, shapes_read.
  destruct (h5_open fs folder name) as [msg | entries]; [reflexivity |].
  destruct (nonempty kfl) as [k |].
  - apply collect_key_for_length_shapes.
  - apply collect_all_keys_shapes.
Qed.

Lemma shapes_after_all fs folder kfl names shapes :
  fold_left (shapes_after fs folder kfl) names shapes
    = add_shapes shapes
        (flat_map (fun n => shapes_read kfl (h5_open fs folder n)) names).
Proof.
  revert shapes. induction names as [| n rest IH]; intros shapes; simpl; [reflexivity |].
  rewrite IH, shapes_after_read. unfold add_shapes. rewrite fold_left_app. reflexivity.
Qed.

Lemma fails_before_shapes_after fs folder kfl name shapes :
  fails_before_shapes fs folder kfl name ->
  shapes_after fs folder kfl shapes name = shapes.
Proof.
  intros [_ H]. rewrite shapes_after_read, H. reflexivity.
Qed.

(** A file that cannot be opened, and a file that fails while the one key
    [hdf5_key_for_length] is read, have given no shape. *)
Lemma fails_before_shapes_cases fs folder kfl name :
  (exists msg, h5_open fs folder name = Unreadable msg) \/
  (nonempty kfl <> None /\
   is_Some (read_failure kfl (h5_open fs folder name))) ->
  fails_before_shapes fs folder kfl name.
Proof.
  unfold fails_before_shapes, read_failure, shapes_read.
  intros [[msg ->] | [Hk Hfail]]; [split; [eauto | reflexivity] |].
  split; [exact Hfail |].
  destruct (h5_open fs folder name) as [msg | entries]; [reflexivity |].
  destruct (nonempty kfl) as [k |]; [| contradiction].
  unfold first_failure_key_for_length, shapes_read_key_for_length in *.
  destruct (h5_contains entries k); [| reflexivity].
  destruct (h5_getitem entries k) as [[dims | | msg] | e]; try reflexivity.
  simpl in Hfail. destruct Hfail as [x Hx]. discriminate.
Qed.

Lemma shapes_after_skip fs folder kfl name names shapes :
  fails_before_shapes fs folder kfl name ->
  fold_left (shapes_after fs folder kfl) names shapes
    = fold_left (shapes_after fs folder kfl) (filter (fun n => n <> name) names) shapes.
Proof.
  intros Hfail. revert shapes.
  induction names as [| n rest IH]; intros shapes; [reflexivity |].
  rewrite filter_cons. destruct (decide (n <> name)) as [Hn | Hn]; simpl.
  - apply IH.
  - apply dec_stable in Hn. subst n.
    rewrite fails_before_shapes_after by exact Hfail. apply IH.
Qed.

Lemma shapes_after_ext fs fs' folder kfl names shapes :
  (forall n, In n names -> h5_open fs' folder n = h5_open fs folder n) ->
  fold_left (shapes_after fs' folder kfl) names shapes
    = fold_left (shapes_after fs folder kfl) names shapes.
Proof.
  revert shapes. induction names as [| n rest IH]; intros shapes H; [reflexivity |].
  simpl. unfold shapes_after at 2 4. rewrite (H n (or_introl eq_refl)).
  apply IH. intros n' Hn'. apply H. right. exact Hn'.
Qed.

(** *** The folder without one file *)

Lemma remove_file_lookup fs folder name d :
  fs !! folder = Some d ->
  remove_file fs folder name !! folder
    = Some (Directory (delete name (dir_files d)) (dir_info d)).
Proof.
  intros Hd. unfold remove_file. rewrite Hd. apply lookup_insert_eq.
Qed.

Lemma remove_file_open fs folder name n :
  n <> name ->
  h5_open (remove_file fs folder name) folder n = h5_open fs folder n.
Proof.
  intros Hn. unfold h5_open.
  destruct (fs !! folder) as [d |] eqn:Hd.
  - rewrite (remove_file_lookup fs folder name d Hd). simpl.
    rewrite lookup_delete_ne by congruence. reflexivity.
  - unfold remove_file. rewrite Hd, Hd. reflexivity.
Qed.

Lemma StronglySorted_filter {A} (R : relation A) (P : A -> Prop)
    `{forall x, Decision (P x)} (l : list A) :
  StronglySorted R l -> StronglySorted R (filter P l).
Proof.
  induction 1 as [| x l Hl IH Hx]; [constructor |].
  rewrite filter_cons. destruct (decide (P x)); [| exact IH].
  constructor; [exact IH |].
  apply Forall_forall. intros y [_ Hy]%list_elem_of_filter.
  rewrite Forall_forall in Hx. apply Hx, Hy.
Qed.

Lemma remove_file_glob fs folder name suffix :
  sorted (glob (remove_file fs folder name) folder suffix)
    = filter (fun n => n <> name) (sorted (glob fs folder suffix)).
Proof.
  apply (StronglySorted_unique str_le).
  - apply sorted_Sorted.
  - apply StronglySorted_filter, sorted_Sorted.
  - rewrite !sorted_Permutation.
    apply NoDup_Permutation.
    + apply glob_NoDup.
    + apply NoDup_filter, glob_NoDup.
    + intros n. rewrite list_elem_of_filter, !list_elem_of_In, !glob_In.
      destruct (fs !! folder) as [d |] eqn:Hd.
      * rewrite (remove_file_lookup fs folder name d Hd). split.
        -- intros (d' & [= <-] & Hn & Hs). simpl in Hn.
           apply lookup_delete_is_Some in Hn as [Hne Hn].
           split; [congruence | eauto].
        -- intros (Hne & d' & [= <-] & Hn & Hs).
           eexists. split; [reflexivity |]. simpl.
           split; [| exact Hs]. apply lookup_delete_is_Some. split; [congruence | exact Hn].
      * unfold remove_file. rewrite Hd, Hd. split.
        -- intros (d' & [=] & _).
        -- intros (_ & d' & [=] & _).
Qed.

Lemma remove_file_hdf5_files fs folder name :
  hdf5_files (remove_file fs folder name) folder
    = filter (fun n => n <> name) (hdf5_files fs folder).
Proof.
  unfold hdf5_files. rewrite filter_app, !remove_file_glob. reflexivity.
Qed.

Lemma remove_file_shapes fs folder key kfl name :
  fails_before_shapes fs folder kfl name ->
  file_shapes (fst (fresh_scan (remove_file fs folder name) folder key kfl))
    = file_shapes (fst (fresh_scan fs folder key kfl)).
Proof.
  intros Hfail. unfold fresh_scan. simpl. f_equal.
  rewrite !scan_files_shapes. simpl.
  rewrite remove_file_hdf5_files.
  rewrite (shapes_after_skip fs folder kfl name (hdf5_files fs folder)) by exact Hfail.
  f_equal. apply shapes_after_ext.
  intros n [Hne _]%list_elem_of_In%list_elem_of_filter.
  apply remove_file_open, Hne.
Qed.

Lemma remove_file_dataset_info fs folder name :
  dataset_info (remove_file fs folder name) folder = dataset_info fs folder.
Proof.
  unfold dataset_info.
  destruct (fs !! folder) as [d |] eqn:Hd.
  - rewrite (remove_file_lookup fs folder name d Hd). reflexivity.
  - unfold remove_file. rewrite Hd, Hd. reflexivity.
Qed.

Lemma record_of_error_only fs folder key kfl name :
  is_Some (fi_error (record_of fs folder key kfl name)) ->
  fi_warning (record_of fs folder key kfl name) = None.
Proof.
  unfold record_of.
  destruct (read_failure kfl (h5_open fs folder name)); simpl; [reflexivity |].
  intros [x Hx]. discriminate.
Qed.

(** C7, as stated, fails: the only file of [broken_fs] gives the shape of
    [image] and then raises on [link]; its record carries the error, and
    the shape it gave before is in [file_shapes]. *)
Lemma C7_shapes_of_a_failed_file :
  out_result (search_file_tree broken_fs "data" (Some "image") None true false false)
    = Ok (Metadata "data" (Some "image")
            (Some [FileInfo "data/a.h5" "a.h5" None (Some "unable to open object")])
            (Some [("image", [Shape IsList [2; 3]%Z])])).
Proof. vm_compute. reflexivity. Qed.

(** C7, amended: in a freshly scanned manifest, every record that carries
    an error has no warning, and has the name of a discovered file and its
    path. [file_shapes] holds, file after file, the shapes each file gave
    before it ended or failed. A failed file that had given no shape leaves
    nothing there: the scan of the folder without it returns the same
    [file_shapes]. That is so for every file that cannot be opened and for
    every file that fails while the one key [hdf5_key_for_length] is
    read. *)
Theorem C7_error_records fs folder key kfl redo write ro m :
  fresh fs folder redo ->
  out_result (search_file_tree fs folder key kfl redo write ro) = Ok m ->
  Forall (fun fi =>
            is_Some (fi_error fi) ->
            fi_warning fi = None /\
            fi_path fi = path_join folder (fi_name fi) /\
            In (fi_name fi) (hdf5_files fs folder))
         (get_files m) /\
  get_file_shapes m =
    map (fun kv => (fst kv, map convert_shape (snd kv)))
      (add_shapes []
         (flat_map (fun n => shapes_read kfl (h5_open fs folder n))
            (hdf5_files fs folder))) /\
  (forall name,
     In name (hdf5_files fs folder) ->
     fails_before_shapes fs folder kfl name ->
     (exists msg,
        In (FileInfo (path_join folder name) name None (Some msg)) (get_files m)) /\
     (exists m',
        out_result (search_file_tree (remove_file fs folder name) folder key kfl
                      redo write ro) = Ok m' /\
        file_shapes m' = file_shapes m)) /\
  (forall name,
     (exists msg, h5_open fs folder name = Unreadable msg) \/
     (nonempty kfl <> None /\
      is_Some (read_failure kfl (h5_open fs folder name))) ->
     fails_before_shapes fs folder kfl name).
Proof.
  intros Hfresh Hok.
  assert (Hk : ~ key_missing key redo write).
  { intros Hk. rewrite search_file_tree_rejects in Hok by exact Hk. discriminate. }
  apply search_file_tree_fresh_Ok in Hok; [| exact Hfresh]. subst m.
  rewrite fresh_get_files.
  split; [| split; [| split; [| intros name; apply fails_before_shapes_cases]]].
  - apply Forall_forall. intros fi Hfi.
    apply list_elem_of_In, in_map_iff in Hfi as (n & <- & Hn).
    intros Herr. split; [apply record_of_error_only, Herr |].
    destruct (record_of_name fs folder key kfl n) as [-> ->]. auto.
  - unfold get_file_shapes, fresh_scan. simpl.
    rewrite scan_files_shapes, shapes_after_all. reflexivity.
  - intros name Hin Hfail. split.
    + destruct Hfail as [[msg Hmsg] _].
      exists msg. apply in_map_iff. exists name. split; [| exact Hin].
      unfold record_of. rewrite Hmsg. reflexivity.
    + exists (fst (fresh_scan (remove_file fs folder name) folder key kfl)).
      split; [| apply remove_file_shapes, Hfail].
      apply search_file_tree_fresh_returns; [| exact Hk |].
      * destruct Hfresh as [-> | Hinfo]; [left; reflexivity | right].
        rewrite remove_file_dataset_info. exact Hinfo.
      * left. apply hdf5_files_In in Hin as (d & Hd & _).
        rewrite (remove_file_lookup fs folder name d Hd). eauto.
Qed.

Lemma C7_error_records_witness :
  exists m m',
    out_result (search_file_tree data_fs "data" (Some "image") None false true false)
      = Ok m /\
    In (FileInfo "data/c.h5" "c.h5" None (Some "file signature not found"))
       (get_files m) /\
    out_result (search_file_tree (remove_file data_fs "data" "c.h5") "data"
                  (Some "image") None false true false) = Ok m' /\
    file_shapes m' = file_shapes m /\
    map fi_name (get_files m') = ["b.h5"; "a.hdf5"].
Proof.
  assert (Hfresh : fresh data_fs "data" false) by (right; reflexivity).
  assert (Hin : In "c.h5" (hdf5_files data_fs "data")) by (vm_compute; auto).
  destruct (C7_error_records data_fs "data" (Some "image") None false true false _
              Hfresh eq_refl) as (_ & _ & H & Hcases).
  assert (Hfail : fails_before_shapes data_fs "data" None "c.h5")
    by (apply Hcases; left; eexists; reflexivity).
  destruct (H "c.h5" Hin Hfail) as [_ (m' & Hm' & Hshapes)].
  eexists. exists m'.
  split; [vm_compute; reflexivity |].
  split; [vm_compute; auto |].
  split; [exact Hm' |].
  split; [exact Hshapes |].
  assert (E : Ok m' = Ok (fst (fresh_scan (remove_file data_fs "data" "c.h5") "data"
                                 (Some "image") None)))
    by (rewrite <- Hm'; vm_compute; reflexivity).
  injection E as ->. reflexivity.
Defined.

(** * Further properties *)

(** ** convert_tuples_to_lists, again *)

Section convert_again.
Import Py.

Lemma convert_fixed (v : value) :
  no_tuple_values v = true -> convert_tuples_to_lists v = v.
Proof.
  induction v as [a | l IH | l IH | d IH] using value_nested_ind; simpl;
    try reflexivity; try discriminate.
  - intros H. f_equal.
    induction IH as [| x l' Hx _ IHl]; simpl in *; [reflexivity |].
    apply andb_prop in H as [H1 H2]. rewrite Hx, IHl; auto.
  - intros H. f_equal.
    induction IH as [| [k x] d' Hx _ IHd]; simpl in *; [reflexivity |].
    apply andb_prop in H as [H1 H2]. rewrite Hx, IHd; auto.
Qed.
End convert_again.

(** X1: converting twice is converting once. *)
Theorem X1_convert_idempotent (v : Py.value) :
  Py.convert_tuples_to_lists (Py.convert_tuples_to_lists v)
    = Py.convert_tuples_to_lists v.
Proof. apply convert_fixed, convert_no_tuple_values. Qed.

(** X2: the values [convert_tuples_to_lists] returns as they are, are the
    values with no tuple in a value position; a list that holds no tuple is
    among them, a tuple never is. *)
Theorem X2_convert_fixed_points (v : Py.value) :
  Py.convert_tuples_to_lists v = v <-> Py.no_tuple_values v = true.
Proof.
  split; [| apply convert_fixed].
  intros H. rewrite <- H. apply convert_no_tuple_values.
Qed.

Lemma X2_convert_fixed_points_witness :
  Py.convert_tuples_to_lists (Py.VList [Py.VInt 1; Py.VInt 2; Py.VInt 3])
    = Py.VList [Py.VInt 1; Py.VInt 2; Py.VInt 3] /\
  Py.no_tuple_values (Py.VTuple [Py.VInt 1]) = false.
Proof.
  split; [| reflexivity].
  apply (proj2 (X2_convert_fixed_points (Py.VList [Py.VInt 1; Py.VInt 2; Py.VInt 3]))).
  reflexivity.
Defined.

(** ** search_file_tree and the file system *)

Lemma search_file_tree_fs_cases fs folder key kfl redo write ro :
  out_fs (search_file_tree fs folder key kfl redo write ro) = fs \/
  (write = true /\ ro = false /\ fresh fs folder redo /\
   ~ key_missing key redo write /\
   out_result (search_file_tree fs folder key kfl redo write ro)
     = Ok (fst (fresh_scan fs folder key kfl)) /\
   out_fs (search_file_tree fs folder key kfl redo write ro)
     = with_dataset_info fs folder
         (Some (YamlDoc (fst (fresh_scan fs folder key kfl))))).
Proof.
  destruct (key_missing_dec key redo write) as [Hk | Hk].
  { left. rewrite search_file_tree_rejects by exact Hk. reflexivity. }
  assert (Hcases : fresh fs folder redo \/
                   (redo = false /\ exists y, dataset_info fs folder = Some y)).
  { destruct redo; [left; left; reflexivity |].
    destruct (dataset_info fs folder) as [y |] eqn:E; [right; eauto | left; right; auto]. }
  destruct Hcases as [Hfresh | [-> [y Hy]]].
  - rewrite search_file_tree_scans by assumption. cbv zeta.
    destruct write, ro; simpl; auto.
    unfold write_dataset_info, with_dataset_info.
    destruct (fs !! folder) as [d |]; simpl; [| auto].
    right. repeat split; auto.
  - left. unfold search_file_tree.
    destruct (bool_decide (key = None) && (negb false || write)); [reflexivity |].
    simpl. rewrite Hy. destruct y; reflexivity.
Qed.

Lemma with_dataset_info_lookup fs folder info folder' :
  with_dataset_info fs folder info !! folder' =
    if decide (folder = folder')
    then (fun d => Directory (dir_files d) info) <$> (fs !! folder')
    else fs !! folder'.
Proof.
  unfold with_dataset_info.
  destruct (decide (folder = folder')) as [<- | Hne].
  - destruct (fs !! folder) as [d |] eqn:Hd.
    + rewrite lookup_insert_eq. reflexivity.
    + rewrite Hd. reflexivity.
  - destruct (fs !! folder) as [d |] eqn:Hd; [| reflexivity].
    rewrite lookup_insert_ne by exact Hne. reflexivity.
Qed.

Lemma with_dataset_info_same_files fs folder info :
  same_files fs (with_dataset_info fs folder info).
Proof.
  intros folder'. rewrite with_dataset_info_lookup.
  destruct (decide (folder = folder')); [| reflexivity].
  destruct (fs !! folder'); reflexivity.
Qed.

(** What a scan finds and reads depends on the HDF5 files alone. *)
Lemma same_files_glob fs fs' folder suffix :
  same_files fs fs' -> glob fs folder suffix = glob fs' folder suffix.
Proof.
  intros H. specialize (H folder). unfold glob.
  destruct (fs !! folder) as [d |], (fs' !! folder) as [d' |]; simpl in H;
    try discriminate; [| reflexivity].
  injection H as ->. reflexivity.
Qed.

Lemma same_files_open fs fs' folder name :
  same_files fs fs' -> h5_open fs folder name = h5_open fs' folder name.
Proof.
  intros H. specialize (H folder). unfold h5_open.
  destruct (fs !! folder) as [d |], (fs' !! folder) as [d' |]; simpl in H;
    try discriminate; [| reflexivity].
  injection H as ->. reflexivity.
Qed.

Lemma same_files_scan_files fs fs' folder key kfl names st :
  same_files fs fs' ->
  scan_files fs folder key kfl names st = scan_files fs' folder key kfl names st.
Proof.
  intros H. unfold scan_files. revert st.
  induction names as [| n rest IH]; intros st; simpl; [reflexivity |].
  rewrite IH. f_equal. unfold scan_file.
  rewrite (same_files_open fs fs' folder n H). reflexivity.
Qed.

Lemma same_files_fresh_scan fs fs' folder key kfl :
  same_files fs fs' ->
  fresh_scan fs folder key kfl = fresh_scan fs' folder key kfl.
Proof.
  intros H. unfold fresh_scan, hdf5_files.
  rewrite !(same_files_glob fs fs' folder _ H).
  rewrite (same_files_scan_files fs fs' folder key kfl _ _ H). reflexivity.
Qed.

(** X3: a call changes nothing in the file system but the
    [dataset_info.yaml] of its folder: every other folder is as it was, no
    folder appears or disappears, and the HDF5 files of every folder are as
    they were. *)
Theorem X3_only_dataset_info_is_written fs folder key kfl redo write ro :
  let fs' := out_fs (search_file_tree fs folder key kfl redo write ro) in
  (forall folder', folder' <> folder -> fs' !! folder' = fs !! folder') /\
  (forall folder', dir_files <$> (fs' !! folder') = dir_files <$> (fs !! folder')).
Proof.
  cbv zeta.
  destruct (search_file_tree_fs_cases fs folder key kfl redo write ro)
    as [-> | (_ & _ & _ & _ & _ & ->)]; [auto |].
  split.
  - intros folder' Hne. rewrite with_dataset_info_lookup.
    destruct (decide (folder = folder')); [congruence | reflexivity].
  - intros folder'. symmetry. apply with_dataset_info_same_files.
Qed.

Lemma X3_only_dataset_info_is_written_witness :
  out_fs (search_file_tree data_fs "data" (Some "image") None false true false)
    !! "elsewhere" = data_fs !! "elsewhere" /\
  dir_files <$>
    (out_fs (search_file_tree data_fs "data" (Some "image") None false true false)
       !! "data") = Some (dir_files data_dir).
Proof.
  destruct (X3_only_dataset_info_is_written data_fs "data" (Some "image") None
              false true false) as [Hother Hfiles].
  split.
  - apply Hother. discriminate.
  - rewrite Hfiles. reflexivity.
Defined.

(** ** Scanning again *)

Lemma with_dataset_info_dataset_info fs folder info :
  is_Some (fs !! folder) ->
  dataset_info (with_dataset_info fs folder info) folder = info.
Proof.
  intros [d Hd]. unfold dataset_info.
  rewrite with_dataset_info_lookup, decide_True by reflexivity.
  rewrite Hd. reflexivity.
Qed.

Lemma with_dataset_info_twice fs folder info info' :
  with_dataset_info (with_dataset_info fs folder info) folder info'
    = with_dataset_info fs folder info'.
Proof.
  unfold with_dataset_info at 1.
  rewrite with_dataset_info_lookup, decide_True by reflexivity.
  unfold with_dataset_info.
  destruct (fs !! folder) as [d |] eqn:Hd; simpl; [| reflexivity].
  rewrite insert_insert_eq. reflexivity.
Qed.

(** X4: after a scan that wrote [dataset_info.yaml], a call with [redo]
    false and any key returns the manifest of that scan and opens no file;
    it still does when an HDF5 file of the folder has been removed in
    between. *)
Theorem X4_written_manifest_is_reused fs folder key kfl redo key' kfl' write' ro' :
  fresh fs folder redo ->
  key <> None ->
  key' <> None ->
  is_Some (fs !! folder) ->
  exists m fs1,
    search_file_tree fs folder key kfl redo true false
      = Outcome (Ok m) fs1 (map (path_join folder) (hdf5_files fs folder)) /\
    search_file_tree fs1 folder key' kfl' false write' ro' = Outcome (Ok m) fs1 [] /\
    (forall name,
       search_file_tree (remove_file fs1 folder name) folder key' kfl' false write' ro'
         = Outcome (Ok m) (remove_file fs1 folder name) []).
Proof.
  intros Hfresh Hkey Hkey' [d Hd].
  set (m := fst (fresh_scan fs folder key kfl)).
  exists m, (with_dataset_info fs folder (Some (YamlDoc m))).
  assert (Hinfo : dataset_info (with_dataset_info fs folder (Some (YamlDoc m))) folder
                  = Some (YamlDoc m))
    by (apply with_dataset_info_dataset_info; eauto).
  split; [| split].
  - rewrite search_file_tree_scans; [| intros [H _]; contradiction | exact Hfresh].
    cbv zeta. cbn [andb negb]. unfold write_dataset_info, with_dataset_info.
    rewrite Hd.
    destruct (fresh_scan_files fs folder key kfl) as (_ & _ & _ & ->). reflexivity.
  - apply search_file_tree_loads; [intros [H _]; contradiction | exact Hinfo].
  - intros name. apply search_file_tree_loads; [intros [H _]; contradiction |].
    rewrite remove_file_dataset_info. exact Hinfo.
Qed.

Lemma X4_written_manifest_is_reused_witness :
  exists m fs1,
    search_file_tree data_fs "data" (Some "image") None false true false
      = Outcome (Ok m) fs1 ["data/b.h5"; "data/c.h5"; "data/a.hdf5"] /\
    search_file_tree (remove_file fs1 "data" "b.h5") "data" (Some "image_sc")
      (Some "image") false true false
      = Outcome (Ok m) (remove_file fs1 "data" "b.h5") [].
Proof.
  assert (Hfresh : fresh data_fs "data" false) by (right; reflexivity).
  assert (H1 : Some "image" <> None) by discriminate.
  assert (H2 : Some "image_sc" <> None) by discriminate.
  assert (Hd : is_Some (data_fs !! "data")) by (eexists; reflexivity).
  destruct (X4_written_manifest_is_reused data_fs "data" (Some "image") None false
              (Some "image_sc") (Some "image") true false Hfresh H1 H2 Hd)
    as (m & fs1 & Hscan & _ & Hload).
  exists m, fs1. split; [exact Hscan | apply Hload].
Defined.

(** X5: with [redo] true the content of [dataset_info.yaml] plays no part:
    whatever is there, invalid or not, the call returns the freshly scanned
    manifest, and a writing call replaces the file with it. Scanning once
    more leaves the result and the file system as they are. *)
Theorem X5_redo_replaces_dataset_info fs folder key kfl info :
  key <> None ->
  is_Some (fs !! folder) ->
  let m := fst (fresh_scan fs folder key kfl) in
  let o := search_file_tree (with_dataset_info fs folder info) folder key kfl
             true true false in
  out_result o = Ok m /\
  out_fs o = with_dataset_info fs folder (Some (YamlDoc m)) /\
  search_file_tree (out_fs o) folder key kfl true true false
    = Outcome (Ok m) (out_fs o) (out_opened o).
Proof.
  intros Hkey Hd. cbv zeta.
  assert (Hk : ~ key_missing key true true) by (intros [H _]; contradiction).
  assert (Hscan : forall info',
            search_file_tree (with_dataset_info fs folder info') folder key kfl
              true true false
            = Outcome (Ok (fst (fresh_scan fs folder key kfl)))
                (with_dataset_info fs folder
                   (Some (YamlDoc (fst (fresh_scan fs folder key kfl)))))
                (snd (fresh_scan fs folder key kfl))).
  { intros info'.
    rewrite search_file_tree_scans; [| exact Hk | left; reflexivity].
    rewrite <- (same_files_fresh_scan fs _ folder key kfl
                  (with_dataset_info_same_files fs folder info')).
    cbv zeta. cbn [andb negb]. unfold write_dataset_info, with_dataset_info.
    destruct Hd as [d Hd]. rewrite Hd, lookup_insert_eq. cbn [dir_files].
    rewrite insert_insert_eq. reflexivity. }
  rewrite !Hscan. simpl. split; [reflexivity |]. split; [reflexivity |].
  apply Hscan.
Qed.

Lemma X5_redo_replaces_dataset_info_witness :
  out_result
    (search_file_tree (with_dataset_info data_fs "data" (Some (YamlInvalid "bad")))
       "data" (Some "image") None true true false)
    = Ok (fst (fresh_scan data_fs "data" (Some "image") None)) /\
  dataset_info (with_dataset_info data_fs "data" (Some (YamlInvalid "bad"))) "data"
    = Some (YamlInvalid "bad").
Proof.
  assert (H1 : Some "image" <> None) by discriminate.
  assert (Hd : is_Some (data_fs !! "data")) by (eexists; reflexivity).
  split; [| reflexivity].
  exact (proj1 (X5_redo_replaces_dataset_info data_fs "data" (Some "image") None
                  (Some (YamlInvalid "bad")) H1 Hd)).
Defined.

(** ** What search_file_tree raises *)

Lemma search_file_tree_result_cases fs folder key kfl redo write ro :
  let r := out_result (search_file_tree fs folder key kfl redo write ro) in
  (key_missing key redo write /\ r = Raise (ValueError key_required_message)) \/
  (~ key_missing key redo write /\ redo = false /\
   exists m, dataset_info fs folder = Some (YamlDoc m) /\ r = Ok m) \/
  (~ key_missing key redo write /\ redo = false /\
   exists msg, dataset_info fs folder = Some (YamlInvalid msg) /\
               r = Raise (YAMLError msg)) \/
  (~ key_missing key redo write /\ fresh fs folder redo /\
   (write && negb ro = false \/ is_Some (fs !! folder)) /\
   r = Ok (fst (fresh_scan fs folder key kfl))) \/
  (~ key_missing key redo write /\ fresh fs folder redo /\
   write = true /\ ro = false /\ fs !! folder = None /\
   r = Raise (FileNotFoundError (path_join folder "dataset_info.yaml"))).
Proof.
  cbv zeta.
  destruct (key_missing_dec key redo write) as [Hk | Hk].
  { left. rewrite search_file_tree_rejects by exact Hk. auto. }
  right.
  assert (Hcases : fresh fs folder redo \/
                   (redo = false /\ exists y, dataset_info fs folder = Some y)).
  { destruct redo; [left; left; reflexivity |].
    destruct (dataset_info fs folder) as [y |] eqn:E; [right; eauto | left; right; auto]. }
  destruct Hcases as [Hfresh | [-> [[m | msg] Hy]]].
  - right. right.
    rewrite search_file_tree_scans by assumption. cbv zeta.
    destruct (write && negb ro) eqn:Hw; [| left; auto].
    unfold write_dataset_info.
    destruct (fs !! folder) as [d |] eqn:Hd; cbn [out_result].
    + left. eauto 10.
    + right. apply andb_prop in Hw as [-> Hro].
      apply negb_true_iff in Hro as ->. auto 10.
  - left. rewrite (search_file_tree_loads _ _ _ _ _ _ m) by assumption. eauto 10.
  - right. left. unfold search_file_tree.
    destruct (bool_decide (key = None) && (negb false || write)) eqn:E;
      [apply key_missing_decide in E; contradiction |].
    simpl. rewrite Hy. simpl. eauto 10.
Qed.

Lemma fresh_not_cached fs folder y :
  fresh fs folder false -> dataset_info fs folder = Some y -> False.
Proof. intros [H | H] Hy; congruence. Qed.

(** X6: besides the [ValueError] of the key requirement, a call raises only
    two exceptions. It raises the parse error of [dataset_info.yaml] exactly
    when the key requirement is met, [redo] is false and the file is there
    and does not parse. It raises [FileNotFoundError] exactly when the key
    requirement is met, nothing is loaded, [write] is true, [read_only] is
    false and the folder does not exist. What goes wrong while an HDF5 file
    is opened or read is never raised. *)
Theorem X6_exceptions fs folder key kfl redo write ro :
  let r := out_result (search_file_tree fs folder key kfl redo write ro) in
  (forall msg,
     r = Raise (YAMLError msg) <->
     ~ key_missing key redo write /\ redo = false /\
     dataset_info fs folder = Some (YamlInvalid msg)) /\
  (forall p,
     r = Raise (FileNotFoundError p) <->
     ~ key_missing key redo write /\ fresh fs folder redo /\
     write = true /\ ro = false /\ fs !! folder = None /\
     p = path_join folder "dataset_info.yaml") /\
  (forall msg,
     r <> Raise (KeyError msg) /\ r <> Raise (AttributeError msg) /\
     r <> Raise (OSError msg)).
Proof.
  cbv zeta.
  destruct (search_file_tree_result_cases fs folder key kfl redo write ro)
    as [[Hk Hr] | [(Hk & Hredo & m & Hinfo & Hr) | [(Hk & Hredo & msg' & Hinfo & Hr)
       | [(Hk & Hfresh & Hw & Hr) | (Hk & Hfresh & Hw & Hro & Hd & Hr)]]]];
    rewrite Hr; (split; [| split]);
    try (intros; repeat split; discriminate).
  - intros msg. split; [discriminate | tauto].
  - intros p. split; [discriminate | tauto].
  - intros msg. split; [discriminate | intros (_ & _ & H); congruence].
  - intros p. split; [discriminate |].
    intros (_ & Hfresh & _). subst redo.
    destruct (fresh_not_cached fs folder _ Hfresh Hinfo).
  - intros msg. split.
    + intros [= <-]. auto.
    + intros (_ & _ & H). congruence.
  - intros p. split; [discriminate |].
    intros (_ & Hfresh & _). subst redo.
    destruct (fresh_not_cached fs folder _ Hfresh Hinfo).
  - intros msg. split; [discriminate |].
    intros (_ & -> & H). destruct (fresh_not_cached fs folder _ Hfresh H).
  - intros p. split; [discriminate |].
    intros (_ & _ & -> & -> & Hd & _).
    destruct Hw as [Hw | [d Hd']]; [discriminate | congruence].
  - intros msg. split; [discriminate |].
    intros (_ & -> & H). destruct (fresh_not_cached fs folder _ Hfresh H).
  - intros p. split.
    + intros [= <-]. auto 10.
    + intros (_ & _ & _ & _ & _ & ->). reflexivity.
Qed.

Lemma X6_exceptions_witness :
  out_result
    (search_file_tree (with_dataset_info data_fs "data" (Some (YamlInvalid "bad")))
       "data" (Some "image") None false true false)
    = Raise (YAMLError "bad") /\
  out_result (search_file_tree ∅ "missing" (Some "image") None false true false)
    = Raise (FileNotFoundError "missing/dataset_info.yaml").
Proof.
  split.
  - apply (proj1 (X6_exceptions _ "data" (Some "image") None false true false)).
    split; [intros [H _]; discriminate |]. split; reflexivity.
  - apply (proj1 (proj2 (X6_exceptions ∅ "missing" (Some "image") None
                           false true false))).
    split; [intros [H _]; discriminate |].
    split; [right; reflexivity |]. repeat split; reflexivity.
Defined.

(** ** Warnings *)

Lemma record_of_warning fs folder key kfl name w :
  fi_warning (record_of fs folder key kfl name) = Some w <->
  exists entries k,
    h5_open fs folder name = Readable entries /\
    read_failure kfl (Readable entries) = None /\
    nonempty key = Some k /\
    h5_contains entries k = false /\
    w = missing_key_warning k.
Proof.
  unfold record_of, missing_key.
  destruct (h5_open fs folder name) as [msg | entries].
  - cbn [read_failure fi_warning]. split; [discriminate | intros (e & k & [=] & _)].
  - destruct (read_failure kfl (Readable entries)) eqn:Hfail; cbn [fi_warning].
    + split; [discriminate |]. intros (e & k & [= <-] & H & _). congruence.
    + destruct (nonempty key) as [k |].
      * destruct (h5_contains entries k) eqn:Hc.
        -- split; [discriminate |].
           intros (e & k' & [= <-] & _ & [= <-] & H & _). congruence.
        -- split.
           ++ intros [= <-]. exists entries, k. auto.
           ++ intros (e & k' & [= <-] & _ & [= <-] & _ & ->). reflexivity.
      * split; [discriminate | intros (e & k & _ & _ & [=] & _)].
Qed.

(** X7: in a freshly scanned manifest no record has both a warning and an
    error, and the record of a file has a warning exactly when the file was
    read to the end without failure and [key] is a non-empty string that is
    not the name of an entry of the file; the warning names that key. With
    [key] empty, or [None], no record has a warning. *)
Theorem X7_warnings fs folder key kfl redo write ro m :
  fresh fs folder redo ->
  out_result (search_file_tree fs folder key kfl redo write ro) = Ok m ->
  Forall2
    (fun name fi =>
       (is_Some (fi_warning fi) -> fi_error fi = None) /\
       (forall w,
          fi_warning fi = Some w <->
          exists entries k,
            h5_open fs folder name = Readable entries /\
            read_failure kfl (Readable entries) = None /\
            nonempty key = Some k /\
            h5_contains entries k = false /\
            w = missing_key_warning k))
    (hdf5_files fs folder) (get_files m) /\
  (nonempty key = None -> Forall (fun fi => fi_warning fi = None) (get_files m)).
Proof.
  intros Hfresh Hok.
  apply search_file_tree_fresh_Ok in Hok; [| exact Hfresh]. subst m.
  rewrite fresh_get_files.
  change (map (record_of fs folder key kfl) (hdf5_files fs folder))
    with (record_of fs folder key kfl <$> hdf5_files fs folder).
  split.
  - apply Forall2_fmap_r, Forall_Forall2_diag, Forall_forall.
    intros name _. split; [| intros w; apply record_of_warning].
    unfold record_of.
    destruct (read_failure kfl (h5_open fs folder name)); simpl; [| reflexivity].
    intros [w Hw]. discriminate.
  - intros Hkey. apply Forall_fmap, Forall_forall. intros name _. simpl.
    destruct (fi_warning (record_of fs folder key kfl name)) as [w |] eqn:Hw;
      [| reflexivity].
    apply record_of_warning in Hw as (e & k & _ & _ & Hk & _). congruence.
Qed.

Lemma X7_warnings_witness :
  exists m,
    out_result (search_file_tree data_fs "data" (Some "label") None true false false)
      = Ok m /\
    map fi_warning (get_files m)
      = [Some "Primary key 'label' not found in file"; None;
         Some "Primary key 'label' not found in file"] /\
    (exists m0,
       out_result (search_file_tree data_fs "data" (Some "") None true false false)
         = Ok m0 /\
       Forall (fun fi => fi_warning fi = None) (get_files m0)).
Proof.
  eexists. split; [vm_compute; reflexivity |].
  split; [reflexivity |].
  eexists. split; [vm_compute; reflexivity |].
  assert (Hfresh : fresh data_fs "data" true) by (left; reflexivity).
  apply (proj2 (X7_warnings data_fs "data" (Some "") None true false false _
                  Hfresh eq_refl)).
  reflexivity.
Defined.

(** ** The shapes of a fresh manifest *)

Lemma dict_set_twice {V} (d : dict V) k v v' :
  dict_set (dict_set d k v) k v' = dict_set d k v'.
Proof.
  induction d as [| [k0 v0] d IH]; simpl.
  - rewrite String.eqb_refl. reflexivity.
  - destruct (String.eqb k0 k) eqn:E; simpl; rewrite E; [reflexivity |].
    rewrite IH. reflexivity.
Qed.

Lemma append_shape_eq (d : dict (list shape)) k s :
  append_shape d k s = dict_set d k (default [] (dict_get d k) ++ [s]).
Proof.
  unfold append_shape, dict_contains.
  destruct (dict_get d k) as [l |] eqn:E; [rewrite E; reflexivity |].
  rewrite dict_get_set_eq, dict_set_twice. reflexivity.
Qed.

Lemma dict_set_Forall {V} (P : string * V -> Prop) (d : dict V) k v :
  (forall k', P (k', v)) -> Forall P d -> Forall P (dict_set d k v).
Proof.
  intros Hv. induction 1 as [| [k0 v0] d H0 Hd IH]; simpl.
  - constructor; [apply Hv | constructor].
  - destruct (String.eqb k0 k); constructor; auto.
Qed.

Lemma add_shapes_invariant (d : dict (list shape)) l :
  dict_wf d -> Forall (fun kv => snd kv <> []) d ->
  dict_wf (add_shapes d l) /\ Forall (fun kv => snd kv <> []) (add_shapes d l).
Proof.
  unfold add_shapes. revert d.
  induction l as [| [k s] l IH]; intros d Hwf Hne; simpl; [auto |].
  apply IH; rewrite append_shape_eq.
  - apply dict_set_wf, Hwf.
  - apply dict_set_Forall; [| exact Hne].
    intros k'. simpl. destruct (default [] (dict_get d k)); discriminate.
Qed.

Lemma add_shapes_keys (d : dict (list shape)) l k :
  In k (map fst (add_shapes d l)) <-> In k (map fst d) \/ In k (map fst l).
Proof.
  unfold add_shapes. revert d.
  induction l as [| [k0 s] l IH]; intros d; simpl; [tauto |].
  rewrite IH, append_shape_eq, dict_set_keys.
  destruct (dict_contains d k0) eqn:E.
  - apply dict_contains_In in E. split; [tauto |].
    intros [H | [<- | H]]; auto.
  - rewrite in_app_iff. simpl. tauto.
Qed.

Lemma fresh_file_shapes fs folder key kfl :
  get_file_shapes (fst (fresh_scan fs folder key kfl)) =
    map (fun kv => (fst kv, map convert_shape (snd kv)))
      (add_shapes []
         (flat_map (fun n => shapes_read kfl (h5_open fs folder n))
            (hdf5_files fs folder))).
Proof.
  unfold get_file_shapes, fresh_scan. simpl.
  rewrite scan_files_shapes, shapes_after_all. reflexivity.
Qed.

Lemma shape_no_tuple_keys (s : shape) : Py.no_tuple_keys (shape_to_value s) = true.
Proof.
  unfold shape_to_value.
  assert (H : forall dims, forallb Py.no_tuple_keys (map Py.VInt dims) = true).
  { induction dims as [| z dims IH]; simpl; auto. }
  destruct (shape_kind s); simpl; apply H.
Qed.

Lemma file_info_no_tuple_keys (fi : file_info) :
  Py.no_tuple_keys (file_info_to_value fi) = true.
Proof.
  unfold file_info_to_value, opt_item.
  destruct (fi_warning fi), (fi_error fi); reflexivity.
Qed.

Lemma files_no_tuple_keys (l : list file_info) :
  forallb Py.no_tuple_keys (map file_info_to_value l) = true.
Proof.
  induction l as [| fi l IH]; cbn [map forallb]; [reflexivity |].
  rewrite file_info_no_tuple_keys, IH. reflexivity.
Qed.

Lemma shapes_no_tuple_keys (d : dict (list shape)) :
  Py.no_tuple_keys (shapes_to_value d) = true.
Proof.
  unfold shapes_to_value. cbn [Py.no_tuple_keys].
  induction d as [| [k shapes] d IH]; cbn [map forallb fst snd]; [reflexivity |].
  rewrite IH, andb_true_r. cbn [Py.key_has_tuple Py.KStr negb andb Py.no_tuple_keys].
  induction shapes as [| s shapes IHs]; cbn [map forallb]; [reflexivity |].
  rewrite shape_no_tuple_keys, IHs. reflexivity.
Qed.

Lemma metadata_no_tuple_keys (m : metadata) :
  Py.no_tuple_keys (metadata_to_value m) = true.
Proof.
  destruct m as [fp pk fl sh]. unfold metadata_to_value.
  cbn [folder_path primary_key files file_shapes Py.no_tuple_keys].
  rewrite !forallb_app. apply andb_true_intro. split; [| apply andb_true_intro; split].
  - destruct pk; reflexivity.
  - destruct fl as [l |]; [| reflexivity].
    cbn [forallb fst snd Py.key_has_tuple Py.KStr negb andb].
    rewrite andb_true_r. apply files_no_tuple_keys.
  - destruct sh as [d |]; [| reflexivity].
    cbn [forallb fst snd Py.key_has_tuple Py.KStr negb andb].
    rewrite andb_true_r. apply shapes_no_tuple_keys.
Qed.

(** X8: the manifest a fresh scan returns, as the Python dict it is, holds
    no tuple, and so does the [dataset_info.yaml] a writing scan leaves:
    its content is that manifest. *)
Theorem X8_fresh_manifest_has_no_tuple fs folder key kfl redo write ro m :
  fresh fs folder redo ->
  out_result (search_file_tree fs folder key kfl redo write ro) = Ok m ->
  Py.no_tuples (metadata_to_value m) = true /\
  (write = true -> ro = false ->
   dataset_info (out_fs (search_file_tree fs folder key kfl redo write ro)) folder
     = Some (YamlDoc m)).
Proof.
  intros Hfresh Hok.
  pose proof (search_file_tree_fresh_Ok _ _ _ _ _ _ _ _ Hfresh Hok) as Hm.
  split.
  - subst m. unfold fresh_scan. cbn [fst].
    rewrite <- convert_metadata_to_value.
    apply convert_no_tuples, metadata_no_tuple_keys.
  - intros -> ->.
    destruct (search_file_tree_result_cases fs folder key kfl redo true false)
      as [[_ Hr] | [(_ & Hredo & m0 & Hinfo & _) | [(_ & Hredo & msg & Hinfo & _)
         | [(Hk & _ & Hw & _) | (_ & _ & _ & _ & _ & Hr)]]]];
      cbv zeta in *; try congruence.
    + subst redo. destruct (fresh_not_cached fs folder _ Hfresh Hinfo).
    + subst redo. destruct (fresh_not_cached fs folder _ Hfresh Hinfo).
    + destruct Hw as [Hw | [d Hd]]; [discriminate |].
      rewrite search_file_tree_scans by assumption. cbv zeta. cbn [andb negb].
      unfold write_dataset_info. rewrite Hd. cbn [out_fs].
      unfold dataset_info. rewrite lookup_insert_eq. cbn [dir_info]. congruence.
Qed.

Lemma X8_fresh_manifest_has_no_tuple_witness :
  exists m,
    out_result (search_file_tree data_fs "data" (Some "image") None false true false)
      = Ok m /\
    Py.no_tuples (metadata_to_value m) = true /\
    file_shapes m
      = Some [("image", [Shape IsList [2; 3]%Z; Shape IsList [2; 3]%Z])].
Proof.
  eexists. split; [vm_compute; reflexivity |].
  assert (Hfresh : fresh data_fs "data" false) by (right; reflexivity).
  split; [| reflexivity].
  exact (proj1 (X8_fresh_manifest_has_no_tuple data_fs "data" (Some "image") None
                  false true false _ Hfresh eq_refl)).
Defined.

Lemma dict_get_In {V} (d : dict V) k v : dict_get d k = Some v -> In (k, v) d.
Proof.
  induction d as [| [k0 v0] d IH]; simpl; [discriminate |].
  destruct (String.eqb k0 k) eqn:E.
  - apply String.eqb_eq in E. intros [= ->]. subst. auto.
  - auto.
Qed.

Lemma dict_get_is_Some {V} (d : dict V) k :
  is_Some (dict_get d k) <-> In k (map fst d).
Proof.
  rewrite <- dict_contains_In. unfold dict_contains.
  destruct (dict_get d k); split; eauto; try discriminate.
  intros [x Hx]. discriminate.
Qed.

Lemma map_values_keys {V W} (f : V -> W) (d : dict V) :
  map fst (map (fun kv => (fst kv, f (snd kv))) d) = map fst d.
Proof. induction d as [| [k v] d IH]; simpl; [| rewrite IH]; reflexivity. Qed.

(** X9: the [file_shapes] of a freshly scanned manifest has no key twice,
    no key with an empty list, and lists in place of all tuples; so
    [get_shapes] on that manifest gives a shape for every key of
    [file_shapes] and for no other key. *)
Theorem X9_fresh_file_shapes fs folder key kfl redo write ro m :
  fresh fs folder redo ->
  out_result (search_file_tree fs folder key kfl redo write ro) = Ok m ->
  dict_wf (get_file_shapes m) /\
  Forall (fun kv => snd kv <> [] /\
                    Forall (fun s => shape_kind s = IsList) (snd kv))
         (get_file_shapes m) /\
  (forall k, is_Some (dict_get (get_shapes_all [m]) k)
             <-> In k (map fst (get_file_shapes m))).
Proof.
  intros Hfresh Hok.
  apply search_file_tree_fresh_Ok in Hok; [| exact Hfresh].
  pose proof (fresh_file_shapes fs folder key kfl) as Hshapes. rewrite <- Hok in Hshapes.
  clear Hok.
  destruct (add_shapes_invariant [] (flat_map (fun n => shapes_read kfl
                                                 (h5_open fs folder n))
                                       (hdf5_files fs folder)))
    as [Hwf Hne]; [constructor | constructor |].
  assert (Hwf' : dict_wf (get_file_shapes m)).
  { rewrite Hshapes. unfold dict_wf. rewrite map_values_keys. exact Hwf. }
  assert (Hne' : Forall (fun kv => snd kv <> [] /\
                           Forall (fun s => shape_kind s = IsList) (snd kv))
                   (get_file_shapes m)).
  { rewrite Hshapes. apply Forall_forall. intros kv Hin.
    apply list_elem_of_In, in_map_iff in Hin as ([k l] & <- & Hin). simpl.
    rewrite Forall_forall in Hne. apply list_elem_of_In, Hne in Hin. simpl in Hin.
    split; [destruct l; [contradiction | discriminate] |].
    apply Forall_forall. intros s Hs.
    apply list_elem_of_In, in_map_iff in Hs as (s0 & <- & _). reflexivity. }
  split; [exact Hwf' |]. split; [exact Hne' |].
  intros k. rewrite <- dict_get_is_Some. unfold get_shapes_all.
  rewrite get_shapes_fold_get by (constructor; [exact Hwf' | constructor]).
  cbn [last_first_shape]. unfold first_shape.
  destruct (dict_get (get_file_shapes m) k) as [[| s l] |] eqn:E.
  - apply dict_get_In in E. rewrite Forall_forall in Hne'.
    apply list_elem_of_In, Hne' in E. simpl in E. tauto.
  - split; eauto.
  - split; intros [x Hx]; discriminate.
Qed.

Lemma X9_fresh_file_shapes_witness :
  exists m,
    out_result (search_file_tree data_fs "data" (Some "image") None false true false)
      = Ok m /\
    dict_wf (get_file_shapes m) /\
    get_shapes_all [m] = [("image", [2; 3]%Z)].
Proof.
  eexists. split; [vm_compute; reflexivity |].
  assert (Hfresh : fresh data_fs "data" false) by (right; reflexivity).
  split; [| reflexivity].
  exact (proj1 (X9_fresh_file_shapes data_fs "data" (Some "image") None
                  false true false _ Hfresh eq_refl)).
Defined.

(** ** Which keys get shapes *)

Lemma h5_getitem_dataset entries k dims :
  h5_getitem entries k = Ok (H5Dataset dims) <->
  dict_get entries k = Some (H5Dataset dims).
Proof.
  unfold h5_getitem.
  destruct (dict_get entries k) as [[d | | msg] |]; split; congruence.
Qed.

Lemma shapes_read_all_keys_In entries names k s :
  In (k, s) (shapes_read_all_keys entries names) ->
  exists dims, In k names /\ dict_get entries k = Some (H5Dataset dims) /\
               s = Shape IsTuple dims.
Proof.
  induction names as [| n rest IH]; simpl; [tauto |].
  destruct (h5_getitem entries n) as [[dims | | msg] | e] eqn:E; simpl;
    try (intros H; destruct (IH H) as (dims' & ? & ? & ?); eauto 6); [| tauto].
  intros [[= <- <-] | H].
  - exists dims. apply h5_getitem_dataset in E. auto.
  - destruct (IH H) as (dims' & ? & ? & ?). eauto 6.
Qed.

Lemma shapes_read_all_keys_complete entries names k dims :
  first_failure_all_keys entries names = None ->
  In k names ->
  dict_get entries k = Some (H5Dataset dims) ->
  In (k, Shape IsTuple dims) (shapes_read_all_keys entries names).
Proof.
  intros Hfail Hin Hget. apply h5_getitem_dataset in Hget.
  induction names as [| n rest IH]; simpl in *; [tauto |].
  destruct (h5_getitem entries n) as [obj | e] eqn:E; [| discriminate].
  destruct Hin as [-> | Hin].
  - rewrite Hget in E. injection E as <-. left. reflexivity.
  - destruct obj; simpl; auto.
Qed.

Lemma dict_get_key {V} (d : dict V) k v : dict_get d k = Some v -> In k (map fst d).
Proof. intros H. apply dict_get_is_Some. eauto. Qed.

Lemma shapes_read_In kfl f k s :
  In (k, s) (shapes_read kfl f) ->
  exists entries dims,
    f = Readable entries /\ dict_get entries k = Some (H5Dataset dims) /\
    s = Shape IsTuple dims /\
    (forall k0, nonempty kfl = Some k0 -> k0 = k).
Proof.
  unfold shapes_read. destruct f as [msg | entries]; [intros [] |].
  destruct (nonempty kfl) as [k0 |].
  - unfold shapes_read_key_for_length.
    destruct (h5_contains entries k0); [| intros []].
    destruct (h5_getitem entries k0) as [[dims | | msg] | e] eqn:E;
      [| intros [] ..].
    intros [[= <- <-] | []]. apply h5_getitem_dataset in E.
    exists entries, dims. repeat split; auto. congruence.
  - intros H. apply shapes_read_all_keys_In in H as (dims & _ & Hget & ->).
    exists entries, dims. repeat split; auto. discriminate.
Qed.

Lemma shapes_read_complete kfl entries k dims :
  read_failure kfl (Readable entries) = None ->
  dict_get entries k = Some (H5Dataset dims) ->
  nonempty kfl = None \/ nonempty kfl = Some k ->
  In (k, Shape IsTuple dims) (shapes_read kfl (Readable entries)).
Proof.
  unfold read_failure, shapes_read. intros Hfail Hget Hk.
  destruct (nonempty kfl) as [k0 |].
  - destruct Hk as [Hk | [= ->]]; [discriminate |].
    unfold shapes_read_key_for_length, h5_contains, dict_contains.
    rewrite Hget. apply h5_getitem_dataset in Hget. rewrite Hget. left. reflexivity.
  - apply shapes_read_all_keys_complete; [| eapply dict_get_key; eauto | exact Hget].
    destruct (first_failure_all_keys entries (map fst entries)); [discriminate |].
    reflexivity.
Qed.

(** X10: every key of the [file_shapes] of a freshly scanned manifest is
    the name of a dataset in a discovered file that could be opened, and is
    [hdf5_key_for_length] when that is a non-empty string. The other way
    round, every dataset of a discovered file that was read without failure
    is a key of [file_shapes], when [hdf5_key_for_length] is not given or
    is its name. Groups get no key. *)
Theorem X10_file_shapes_keys fs folder key kfl redo write ro m :
  fresh fs folder redo ->
  out_result (search_file_tree fs folder key kfl redo write ro) = Ok m ->
  (forall k,
     In k (map fst (get_file_shapes m)) ->
     exists name entries dims,
       In name (hdf5_files fs folder) /\
       h5_open fs folder name = Readable entries /\
       dict_get entries k = Some (H5Dataset dims) /\
       (forall k0, nonempty kfl = Some k0 -> k0 = k)) /\
  (forall name entries k dims,
     In name (hdf5_files fs folder) ->
     h5_open fs folder name = Readable entries ->
     read_failure kfl (Readable entries) = None ->
     dict_get entries k = Some (H5Dataset dims) ->
     nonempty kfl = None \/ nonempty kfl = Some k ->
     In k (map fst (get_file_shapes m))).
Proof.
  intros Hfresh Hok.
  apply search_file_tree_fresh_Ok in Hok; [| exact Hfresh]. subst m.
  rewrite fresh_file_shapes, map_values_keys. split.
  - intros k Hk. apply add_shapes_keys in Hk as [[] | Hk].
    apply in_map_iff in Hk as ([k' s] & Hfst & Hin). simpl in Hfst. subst k'.
    apply in_flat_map in Hin as (name & Hname & Hin).
    apply shapes_read_In in Hin as (entries & dims & Hopen & Hget & _ & Hkfl).
    exists name, entries, dims. auto.
  - intros name entries k dims Hname Hopen Hfail Hget Hkfl.
    apply add_shapes_keys. right.
    apply in_map_iff. exists (k, Shape IsTuple dims). split; [reflexivity |].
    apply in_flat_map. exists name. split; [exact Hname |].
    rewrite Hopen. apply shapes_read_complete; assumption.
Qed.

Lemma X10_file_shapes_keys_witness :
  exists m,
    out_result (search_file_tree data_fs "data" (Some "image") None false true false)
      = Ok m /\
    In "image" (map fst (get_file_shapes m)) /\
    map fst (get_file_shapes m) = ["image"].
Proof.
  eexists. split; [vm_compute; reflexivity |].
  assert (Hfresh : fresh data_fs "data" false) by (right; reflexivity).
  split; [| reflexivity].
  apply (proj2 (X10_file_shapes_keys data_fs "data" (Some "image") None
                  false true false _ Hfresh eq_refl)
           "a.hdf5" [("image", H5Dataset [2; 3]%Z); ("meta", H5Group)] "image"
           [2; 3]%Z).
  - vm_compute. auto.
  - reflexivity.
  - reflexivity.
  - reflexivity.
  - left. reflexivity.
Defined.

(** ** Folder and Dataset *)

Lemma Folder_init_Some fs folder_path k kfl kw ro :
  Folder_init fs folder_path (Some k) kfl kw ro =
    let o := search_folders fs (paths_of folder_path)
               (effective_key kw k) (effective_key_for_length kw kfl)
               (effective_redo kw) (effective_write kw)
               (effective_read_only kw ro) [] [] in
    match out_result o with
    | Ok ms => Outcome (Ok (MkFolder (paths_of folder_path) k kfl ro ms))
                 (out_fs o) (out_opened o)
    | Raise e => Outcome (Raise e) (out_fs o) (out_opened o)
    end.
Proof. destruct folder_path; reflexivity. Qed.

Lemma search_file_tree_no_write fs folder key kfl redo write ro :
  write && negb ro = false ->
  out_fs (search_file_tree fs folder key kfl redo write ro) = fs.
Proof.
  intros Hw.
  destruct (search_file_tree_fs_cases fs folder key kfl redo write ro)
    as [H | (-> & -> & _)]; [exact H | discriminate].
Qed.

Lemma search_folders_no_write fs folders key kfl redo write ro acc opened :
  write && negb ro = false ->
  out_fs (search_folders fs folders key kfl redo write ro acc opened) = fs.
Proof.
  intros Hw. revert acc opened.
  induction folders as [| p rest IH]; intros acc opened; simpl; [reflexivity |].
  pose proof (search_file_tree_no_write fs p key kfl redo write ro Hw) as Hfs.
  destruct (out_result (search_file_tree fs p key kfl redo write ro)).
  - rewrite Hfs. apply IH.
  - exact Hfs.
Qed.

(** X11: a Folder, and a Dataset, built with [read_only] true and no
    override of it, or with the override [write] false, leaves the file
    system as it was, however many folders it scans and whether or not it
    raises. *)
Theorem X11_read_only_folder fs folder_path key kfl kw ro :
  effective_write kw && negb (effective_read_only kw ro) = false ->
  out_fs (Folder_init fs folder_path key kfl kw ro) = fs /\
  out_fs (Dataset_init fs folder_path key kfl kw ro) = fs.
Proof.
  intros Hw.
  assert (H : out_fs (Folder_init fs folder_path key kfl kw ro) = fs).
  { destruct key as [k |]; [| reflexivity].
    rewrite Folder_init_Some. cbv zeta.
    pose proof (search_folders_no_write fs (paths_of folder_path)
                  (effective_key kw k) (effective_key_for_length kw kfl)
                  (effective_redo kw) _ _ [] [] Hw) as Hfs.
    destruct (out_result (search_folders _ _ _ _ _ _ _ _ _)); exact Hfs. }
  split; [exact H |].
  unfold Dataset_init.
  destruct (out_result (Folder_init fs folder_path key kfl kw ro)); exact H.
Qed.

Lemma X11_read_only_folder_witness :
  out_fs (Folder_init data_fs (PathList ["data"; "data"]) (Some "image") None None true)
    = data_fs /\
  dataset_info
    (out_fs (Folder_init data_fs (PathList ["data"; "data"]) (Some "image") None
               None false)) "data" <> None.
Proof.
  split.
  - apply (X11_read_only_folder data_fs (PathList ["data"; "data"]) (Some "image")
             None None true). reflexivity.
  - vm_compute. discriminate.
Defined.

Lemma search_folders_aligned fs folders key kfl redo write ro acc opened ms :
  out_result (search_folders fs folders key kfl redo write ro acc opened) = Ok ms ->
  exists ms',
    ms = acc ++ ms' /\ length ms' = length folders /\
    (redo = true ->
     Forall2 (fun p m => folder_path m = p /\ primary_key m = key) folders ms').
Proof.
  revert fs acc opened.
  induction folders as [| p rest IH]; intros fs acc opened; simpl.
  - intros [= <-]. exists []. rewrite app_nil_r. repeat split. constructor.
  - destruct (out_result (search_file_tree fs p key kfl redo write ro)) as [m |] eqn:Hm;
      [| discriminate].
    intros H. apply IH in H as (ms' & -> & Hlen & Hall).
    exists (m :: ms'). rewrite <- app_assoc. split; [reflexivity |].
    split; [simpl; congruence |].
    intros ->. constructor; [| auto].
    apply search_file_tree_fresh_Ok in Hm; [| left; reflexivity]. subst m.
    destruct (fresh_scan_files fs p key kfl) as (_ & Hp & Hk & _). auto.
Qed.

(** X12: a Folder that is built holds its paths as given and one manifest
    for each of them, in their order; with the override [redo] true, the
    manifest of each path is a fresh one, which names that path and the key
    passed to the scan. *)
Theorem X12_one_manifest_per_path fs (paths : path_arg) k kfl kw ro f :
  out_result (Folder_init fs paths (Some k) kfl kw ro) = Ok f ->
  folder_paths f = paths_of paths /\
  folder_key f = k /\
  length (folder_metadata f) = length (folder_paths f) /\
  (effective_redo kw = true ->
   Forall2 (fun p m => folder_path m = p /\ primary_key m = effective_key kw k)
     (folder_paths f) (folder_metadata f)).
Proof.
  rewrite Folder_init_Some. cbv zeta.
  destruct (out_result (search_folders _ _ _ _ _ _ _ _ _)) as [ms |] eqn:Hms;
    [| discriminate].
  intros [= <-]. simpl.
  apply search_folders_aligned in Hms as (ms' & -> & Hlen & Hall). simpl.
  auto.
Qed.

Lemma X12_one_manifest_per_path_witness :
  exists f,
    out_result
      (Folder_init data_fs (PathList ["data"; "nowhere"]) (Some "image") None
         (Some (Kwargs None None (Some true) (Some false) None)) false) = Ok f /\
    map folder_path (folder_metadata f) = ["data"; "nowhere"].
Proof.
  eexists. split; [vm_compute; reflexivity |].
  destruct (X12_one_manifest_per_path data_fs (PathList ["data"; "nowhere"]) "image"
              None (Some (Kwargs None None (Some true) (Some false) None)) false
              _ eq_refl) as (_ & _ & _ & Hall).
  specialize (Hall eq_refl).
  reflexivity.
Defined.

(** ** Scanning, then validating *)

Lemma validate_all_In ms m :
  In m ms -> validate_metadata m = false -> validate_all ms = false.
Proof.
  induction ms as [| m0 rest IH]; simpl; [tauto |].
  intros [-> | Hin] Hm; [rewrite Hm; reflexivity |].
  destruct (validate_metadata m0); auto.
Qed.

(** X13: a Folder does not validate when one of its manifests is a fresh
    scan of a folder with a file that could not be opened or read, or with
    a file that lacks the non-empty [key] of that scan. *)
Theorem X13_unreadable_file_fails_validation
    fs folder key kfl redo write ro m name (f : Folder) :
  fresh fs folder redo ->
  out_result (search_file_tree fs folder key kfl redo write ro) = Ok m ->
  In name (hdf5_files fs folder) ->
  is_Some (read_failure kfl (h5_open fs folder name)) \/
  is_Some (missing_key key (h5_open fs folder name)) ->
  In m (folder_metadata f) ->
  validate f = false.
Proof.
  intros Hfresh Hok Hname Hbad Hm.
  apply (validate_all_In _ m Hm).
  apply search_file_tree_fresh_Ok in Hok; [| exact Hfresh]. subst m.
  unfold validate_metadata. rewrite fresh_get_files.
  assert (H : existsb has_error_or_warning
                (map (record_of fs folder key kfl) (hdf5_files fs folder)) = true).
  { apply existsb_exists. exists (record_of fs folder key kfl name).
    split; [apply in_map, Hname |].
    unfold has_error_or_warning, record_of.
    destruct (read_failure kfl (h5_open fs folder name)) as [msg |]; simpl.
    - reflexivity.
    - destruct Hbad as [[x Hx] | [w Hw]]; [discriminate |]. rewrite Hw. reflexivity. }
  rewrite H. reflexivity.
Qed.

Lemma X13_unreadable_file_fails_validation_witness :
  exists f,
    out_result (Folder_init data_fs (OnePath "data") (Some "image") None None false)
      = Ok f /\
    validate f = false.
Proof.
  eexists. split; [vm_compute; reflexivity |].
  assert (Hfresh : fresh data_fs "data" false) by (right; reflexivity).
  eapply (X13_unreadable_file_fails_validation data_fs "data" (Some "image") None
            false true false _ "c.h5" _ Hfresh).
  - vm_compute. reflexivity.
  - vm_compute. auto.
  - left. eexists. reflexivity.
  - left. reflexivity.
Defined.

(** X14: in a Folder that validates, the first shape of a key in a manifest
    stands for all shapes recorded for that key in that manifest; and when
    that manifest is the last of the Folder, [get_shapes] gives this shape
    for the key. *)
Theorem X14_validated_shapes (f : Folder) m k shapes s :
  validate f = true ->
  In m (folder_metadata f) ->
  dict_get (get_file_shapes m) k = Some shapes ->
  In s shapes ->
  first_shape m k = Some (shape_dims s) /\
  (Forall (fun m => dict_wf (get_file_shapes m)) (folder_metadata f) ->
   (exists ms, folder_metadata f = ms ++ [m]) ->
   dict_get (get_shapes f) k = Some (shape_dims s)).
Proof.
  intros Hv Hm Hget Hs.
  apply validate_all_true in Hv. rewrite Forall_forall in Hv.
  apply list_elem_of_In, Hv in Hm as [_ Hagree].
  rewrite Forall_forall in Hagree.
  pose proof (dict_get_In _ _ _ Hget) as Hin.
  apply list_elem_of_In, Hagree in Hin. simpl in Hin.
  assert (Hfirst : first_shape m k = Some (shape_dims s)).
  { unfold first_shape. rewrite Hget.
    destruct shapes as [| s0 l]; [destruct Hs |].
    f_equal. apply Hin; [left; reflexivity | exact Hs]. }
  split; [exact Hfirst |].
  intros Hwf [ms Hms]. unfold get_shapes, get_shapes_all.
  rewrite get_shapes_fold_get by exact Hwf. rewrite Hms.
  assert (Hlast : forall l, last_first_shape (l ++ [m]) k = Some (shape_dims s)).
  { induction l as [| m0 l IH]; simpl; [rewrite Hfirst | rewrite IH]; reflexivity. }
  rewrite Hlast. reflexivity.
Qed.

Lemma X14_validated_shapes_witness :
  first_shape manifest_b "image" = Some [5; 7]%Z /\
  dict_get (get_shapes two_folders) "image" = Some [5; 7]%Z.
Proof.
  assert (Hv : validate two_folders = true) by reflexivity.
  assert (Hm : In manifest_b (folder_metadata two_folders)) by (right; left; reflexivity).
  assert (Hget : dict_get (get_file_shapes manifest_b) "image"
                 = Some [Shape IsList [5; 7]%Z; Shape IsTuple [5; 7]%Z]) by reflexivity.
  assert (Hs : In (Shape IsTuple [5; 7]%Z)
                 [Shape IsList [5; 7]%Z; Shape IsTuple [5; 7]%Z])
    by (right; left; reflexivity).
  destruct (X14_validated_shapes two_folders manifest_b "image" _ _ Hv Hm Hget Hs)
    as [Hfirst Hlast].
  split; [exact Hfirst |].
  apply Hlast.
  - repeat constructor; simpl; intros H; apply elem_of_nil in H; exact H.
  - exists [manifest_a]. reflexivity.
Defined.

(** ** Tuples or lists: no difference to a Folder *)

Lemma inconsistent_convert (shapes : list shape) :
  inconsistent (map convert_shape shapes) = inconsistent shapes.
Proof.
  unfold inconsistent.
  assert (H : map tuple (map convert_shape shapes) = map tuple shapes).
  { induction shapes as [| s l IH]; simpl; [| rewrite IH]; reflexivity. }
  destruct shapes as [| s l]; [reflexivity |].
  cbn [map] in *. rewrite H. reflexivity.
Qed.

Lemma validate_metadata_convert (m : metadata) :
  validate_metadata (convert_metadata m) = validate_metadata m.
Proof.
  unfold validate_metadata, convert_metadata, get_files, get_file_shapes. simpl.
  destruct (existsb has_error_or_warning (default [] (files m))); [reflexivity |].
  assert (H : existsb (fun kv => inconsistent (snd kv))
                (default [] (option_map
                               (map (fun kv => (fst kv, map convert_shape (snd kv))))
                               (file_shapes m)))
              = existsb (fun kv => inconsistent (snd kv)) (default [] (file_shapes m))).
  { destruct (file_shapes m) as [d |]; [| reflexivity]. simpl.
    induction d as [| [k l] d IH]; simpl; [reflexivity |].
    rewrite inconsistent_convert, IH. reflexivity. }
  rewrite H. reflexivity.
Qed.

Lemma get_shapes_items_convert (items : dict (list shape)) acc :
  get_shapes_items (map (fun kv => (fst kv, map convert_shape (snd kv))) items) acc
    = get_shapes_items items acc.
Proof.
  revert acc. induction items as [| [k l] items IH]; intros acc; simpl; [reflexivity |].
  destruct l as [| s l]; simpl; apply IH.
Qed.

(** X15: [validate] and [get_shapes] give the same for a Folder whose
    manifests hold tuples and for the Folder with every manifest passed
    through [convert_tuples_to_lists]: shapes count by their dimensions. *)
Theorem X15_tuples_or_lists (f : Folder) :
  validate (convert_folder f) = validate f /\
  get_shapes (convert_folder f) = get_shapes f.
Proof.
  unfold validate, get_shapes, convert_folder. simpl. split.
  - induction (folder_metadata f) as [| m ms IH]; simpl; [reflexivity |].
    rewrite validate_metadata_convert, IH. reflexivity.
  - unfold get_shapes_all. generalize (@nil (string * list Z)).
    induction (folder_metadata f) as [| m ms IH]; intros acc; simpl; [reflexivity |].
    rewrite IH. f_equal.
    unfold convert_metadata, get_file_shapes. simpl.
    destruct (file_shapes m) as [d |]; [| reflexivity]. simpl.
    apply get_shapes_items_convert.
Qed.

Lemma X15_tuples_or_lists_witness :
  validate (convert_folder two_folders) = true /\
  get_shapes (convert_folder two_folders) = [("image", [5; 7]%Z)].
Proof.
  destruct (X15_tuples_or_lists two_folders) as [-> ->]. split; reflexivity.
Defined.

(** ** Folders that do not exist *)

Lemma search_file_tree_missing_folder fs folder key kfl redo write ro :
  fs !! folder = None ->
  key <> None ->
  search_file_tree fs folder key kfl redo write ro =
    if write && negb ro
    then Outcome (Raise (FileNotFoundError (path_join folder "dataset_info.yaml"))) fs []
    else Outcome (Ok (Metadata folder key (Some []) (Some []))) fs [].
Proof.
  intros Hd Hkey.
  rewrite search_file_tree_scans;
    [| intros [H _]; contradiction
     | right; unfold dataset_info; rewrite Hd; reflexivity].
  rewrite (fresh_scan_empty fs folder key kfl (hdf5_files_missing_folder fs folder Hd)).
  cbv zeta. cbn [fst snd]. unfold write_dataset_info. rewrite Hd.
  destruct (write && negb ro); reflexivity.
Qed.

Lemma search_folders_missing fs folders key kfl redo write ro acc opened :
  Forall (fun p => fs !! p = None) folders ->
  key <> None ->
  write && negb ro = false ->
  search_folders fs folders key kfl redo write ro acc opened =
    Outcome (Ok (acc ++ map (fun p => Metadata p key (Some []) (Some [])) folders))
      fs opened.
Proof.
  intros Hmissing Hkey Hw. revert acc opened.
  induction Hmissing as [| p rest Hp _ IH]; intros acc opened; simpl.
  - rewrite app_nil_r. reflexivity.
  - rewrite search_file_tree_missing_folder, Hw by assumption. simpl.
    rewrite IH, app_nil_r, <- app_assoc. reflexivity.
Qed.

(** X16: over paths that do not exist, a Dataset (and the Folder in it) is
    built when nothing is to be written ([read_only] true, or the override
    [write] false): it opens nothing, leaves the file system as it was,
    holds one empty manifest per path, validates and has no shapes. When
    something is to be written, the construction raises
    [FileNotFoundError] for the [dataset_info.yaml] of the first path. *)
Theorem X16_missing_folders fs (paths : path_arg) k kfl kw ro :
  Forall (fun p => fs !! p = None) (paths_of paths) ->
  effective_key kw k <> None ->
  (effective_write kw && negb (effective_read_only kw ro) = false ->
   exists d,
     Dataset_init fs paths (Some k) kfl kw ro = Outcome (Ok d) fs [] /\
     folder_metadata (dataset_folder d)
       = map (fun p => Metadata p (effective_key kw k) (Some []) (Some []))
           (paths_of paths) /\
     Dataset_validate d = true /\
     Dataset_get_shapes d = []) /\
  (effective_write kw && negb (effective_read_only kw ro) = true ->
   forall p rest,
     paths_of paths = p :: rest ->
     Dataset_init fs paths (Some k) kfl kw ro
       = Outcome (Raise (FileNotFoundError (path_join p "dataset_info.yaml"))) fs []).
Proof.
  intros Hmissing Hkey. split.
  - intros Hw. unfold Dataset_init. rewrite Folder_init_Some. cbv zeta.
    rewrite search_folders_missing by assumption. cbn [out_result out_fs out_opened app].
    eexists. split; [reflexivity |]. cbn [dataset_folder folder_metadata].
    split; [reflexivity |].
    unfold Dataset_validate, Dataset_get_shapes, validate, get_shapes.
    cbn [dataset_folder folder_metadata].
    apply validate_all_empty, Forall_forall.
    intros m Hm. apply list_elem_of_In, in_map_iff in Hm as (p & <- & _).
    split; reflexivity.
  - intros Hw p rest Hpaths. unfold Dataset_init. rewrite Folder_init_Some. cbv zeta.
    rewrite Hpaths in *. apply Forall_cons in Hmissing as [Hp _].
    cbn [search_folders].
    rewrite search_file_tree_missing_folder, Hw by assumption. reflexivity.
Qed.

Lemma X16_missing_folders_witness :
  (exists d,
     Dataset_init ∅ (OnePath "nonexistent/path") (Some "image") None None true
       = Outcome (Ok d) ∅ [] /\
     Dataset_validate d = true) /\
  Dataset_init ∅ (OnePath "nonexistent/path") (Some "image") None None false
    = Outcome (Raise (FileNotFoundError "nonexistent/path/dataset_info.yaml")) ∅ [].
Proof.
  assert (Hmissing : Forall (fun p => (∅ : filesystem) !! p = None)
                       (paths_of (OnePath "nonexistent/path")))
    by (repeat constructor).
  assert (Hkey : effective_key None "image" <> None) by discriminate.
  split.
  - destruct (X16_missing_folders ∅ (OnePath "nonexistent/path") "image" None None
                true Hmissing Hkey) as [Hro _].
    destruct (Hro eq_refl) as (d & Hd & _ & Hv & _). eauto.
  - destruct (X16_missing_folders ∅ (OnePath "nonexistent/path") "image" None None
                false Hmissing Hkey) as [_ Hw].
    apply (Hw eq_refl "nonexistent/path" []). reflexivity.
Defined.

Lemma search_file_tree_writes fs folder key kfl redo :
  fresh fs folder redo ->
  key <> None ->
  is_Some (fs !! folder) ->
  search_file_tree fs folder key kfl redo true false =
    Outcome (Ok (fst (fresh_scan fs folder key kfl)))
      (with_dataset_info fs folder (Some (YamlDoc (fst (fresh_scan fs folder key kfl)))))
      (map (path_join folder) (hdf5_files fs folder)).
Proof.
  intros Hfresh Hkey [d Hd].
  rewrite search_file_tree_scans; [| intros [H _]; contradiction | exact Hfresh].
  cbv zeta. cbn [andb negb]. unfold write_dataset_info, with_dataset_info.
  rewrite Hd.
  destruct (fresh_scan_files fs folder key kfl) as (_ & _ & _ & ->). reflexivity.
Qed.

(** X17: a Folder given the same existing folder twice, with no
    [dataset_info.yaml] there and the default options, scans it once: the
    first call writes the manifest, the second loads it, so the Folder
    holds the same manifest twice and every file was opened once. *)
Theorem X17_same_folder_twice fs p k kfl :
  is_Some (fs !! p) ->
  dataset_info fs p = None ->
  let m := fst (fresh_scan fs p (Some k) kfl) in
  Folder_init fs (PathList [p; p]) (Some k) kfl None false =
    Outcome (Ok (MkFolder [p; p] k kfl false [m; m]))
      (with_dataset_info fs p (Some (YamlDoc m)))
      (map (path_join p) (hdf5_files fs p)).
Proof.
  intros Hd Hinfo. cbv zeta.
  assert (Hfresh : fresh fs p false) by (right; exact Hinfo).
  assert (H1 : Some k <> None) by discriminate.
  rewrite Folder_init_Some. cbv zeta.
  unfold effective_key, effective_key_for_length, effective_redo, effective_write,
    effective_read_only. cbn [default no_kwargs kw_key kw_hdf5_key_for_length kw_redo
                               kw_write kw_read_only paths_of search_folders].
  rewrite (search_file_tree_writes fs p (Some k) kfl false Hfresh H1 Hd).
  cbn [out_result out_fs out_opened].
  rewrite (search_file_tree_loads _ p (Some k) kfl true false
             (fst (fresh_scan fs p (Some k) kfl)));
    [| intros [H _]; discriminate
     | apply with_dataset_info_dataset_info, Hd].
  cbn [out_result out_fs out_opened app]. rewrite app_nil_r. reflexivity.
Qed.

Lemma X17_same_folder_twice_witness :
  exists m,
    out_result (Folder_init data_fs (PathList ["data"; "data"]) (Some "image") None
                  None false)
      = Ok (MkFolder ["data"; "data"] "image" None false [m; m]) /\
    out_opened (Folder_init data_fs (PathList ["data"; "data"]) (Some "image") None
                  None false)
      = ["data/b.h5"; "data/c.h5"; "data/a.hdf5"].
Proof.
  assert (Hd : is_Some (data_fs !! "data")) by (eexists; reflexivity).
  assert (Hinfo : dataset_info data_fs "data" = None) by reflexivity.
  rewrite (X17_same_folder_twice data_fs "data" "image" None Hd Hinfo).
  eexists. split; reflexivity.
Defined.

(** ** One key for the lengths *)

Lemma shapes_read_key_for_length_dims fs folder kfl k name :
  nonempty kfl = Some k ->
  shapes_read kfl (h5_open fs folder name) =
    match dataset_dims fs folder k name with
    | Some dims => [(k, Shape IsTuple dims)]
    | None => []
    end.
Proof.
  intros Hk. unfold shapes_read, dataset_dims. rewrite Hk.
  destruct (h5_open fs folder name) as [msg | entries]; [reflexivity |].
  unfold shapes_read_key_for_length, h5_contains, dict_contains, h5_getitem.
  destruct (dict_get entries k) as [[dims | | msg] |]; reflexivity.
Qed.

Lemma add_shapes_same_key k (l0 : list shape) (l : list (list Z)) :
  add_shapes [(k, l0)] (map (fun dims => (k, Shape IsTuple dims)) l)
    = [(k, l0 ++ map (Shape IsTuple) l)].
Proof.
  unfold add_shapes. revert l0.
  induction l as [| dims l IH]; intros l0; simpl.
  - rewrite app_nil_r. reflexivity.
  - rewrite append_shape_eq. simpl. rewrite String.eqb_refl. simpl.
    rewrite IH, <- app_assoc. reflexivity.
Qed.

Lemma convert_tuple_shapes (l : list (list Z)) :
  map convert_shape (map (Shape IsTuple) l) = map (Shape IsList) l.
Proof. induction l as [| d l IH]; simpl; [| rewrite IH]; reflexivity. Qed.

(** X18: with a non-empty [hdf5_key_for_length], the [file_shapes] of a
    freshly scanned manifest is empty when no discovered file holds a
    dataset of that name, and otherwise has this one key, with the
    dimensions of that dataset for every discovered file that can be opened
    and holds it, in the order of the files: as many shapes as such
    files. *)
Theorem X18_key_for_length fs folder key kfl k redo write ro m :
  nonempty kfl = Some k ->
  fresh fs folder redo ->
  out_result (search_file_tree fs folder key kfl redo write ro) = Ok m ->
  get_file_shapes m =
    match omap (dataset_dims fs folder k) (hdf5_files fs folder) with
    | [] => []
    | l => [(k, map (Shape IsList) l)]
    end.
Proof.
  intros Hk Hfresh Hok.
  apply search_file_tree_fresh_Ok in Hok; [| exact Hfresh]. subst m.
  rewrite fresh_file_shapes.
  assert (Hflat : flat_map (fun n => shapes_read kfl (h5_open fs folder n))
                    (hdf5_files fs folder)
                  = map (fun dims => (k, Shape IsTuple dims))
                      (omap (dataset_dims fs folder k) (hdf5_files fs folder))).
  { induction (hdf5_files fs folder) as [| n rest IH]; simpl; [reflexivity |].
    rewrite IH, (shapes_read_key_for_length_dims fs folder kfl k n Hk).
    destruct (dataset_dims fs folder k n); reflexivity. }
  rewrite Hflat.
  destruct (omap (dataset_dims fs folder k) (hdf5_files fs folder)) as [| dims l];
    [reflexivity |].
  cbn [map]. unfold add_shapes. cbn [fold_left fst snd].
  assert (Hnil : append_shape [] k (Shape IsTuple dims) = [(k, [Shape IsTuple dims])]).
  { rewrite append_shape_eq. reflexivity. }
  rewrite Hnil.
  pose proof (add_shapes_same_key k [Shape IsTuple dims] l) as Hadd.
  unfold add_shapes in Hadd. rewrite Hadd. cbn [map fst snd app].
  rewrite convert_tuple_shapes. reflexivity.
Qed.

Lemma X18_key_for_length_witness :
  exists m,
    out_result (search_file_tree data_fs "data" (Some "image") (Some "image")
                  true false false) = Ok m /\
    get_file_shapes m = [("image", [Shape IsList [2; 3]%Z; Shape IsList [2; 3]%Z])] /\
    (exists m0,
       out_result (search_file_tree data_fs "data" (Some "image") (Some "meta")
                     true false false) = Ok m0 /\
       get_file_shapes m0 = []).
Proof.
  assert (Hfresh : fresh data_fs "data" true) by (left; reflexivity).
  assert (Hm : out_result (search_file_tree data_fs "data" (Some "image")
                             (Some "image") true false false)
               = Ok (fst (fresh_scan data_fs "data" (Some "image") (Some "image"))))
    by (vm_compute; reflexivity).
  exists (fst (fresh_scan data_fs "data" (Some "image") (Some "image"))).
  split; [exact Hm |]. split.
  - rewrite (X18_key_for_length data_fs "data" (Some "image") (Some "image") "image"
               true false false _ eq_refl Hfresh Hm).
    reflexivity.
  - eexists. split; [vm_compute; reflexivity |]. reflexivity.
Defined.
